(** * preload-webpack-plugin: the link list builder and its two hooks

    A shallow embedding of [src/index.js] (class [PreloadPlugin]):
    [generateLinks], and inside [apply] the closures [skip], [appendHash],
    [buildReducer] and the two callbacks tapped on the HTML plugin's hooks.

    JavaScript data is modelled as the code has it:
    - a string is its sequence of UTF-16 code units ([list N]);
    - an object whose property names matter (a tag, its attributes) is a
      finite map from property names to values;
    - arrays of file names live in a store of mutable arrays, addressed by
      location, because [Array.prototype.sort] sorts in place;
    - [this.resourceHints] and the store are threaded by a state monad that
      can also throw.

    The four modules required from [./lib/] are not among the sources. The
    three helper functions are section variables of the definitions; the
    constructor, which merges [lib/default-options] into the options, is
    left out: [Options] is [this.options] as the methods find it. Which
    pair of hooks [apply] taps is the host's business and is left out too. *)

From stdpp Require Import base option list gmap sorting strings.
From Stdlib Require Import NArith ZArith Ascii.

#[local] Set Warnings "-register-all,-clear-no-such-hyp".

(** ** Strings *)

(** A JavaScript string: its UTF-16 code units. *)
Abbreviation jsstring := (list N).

(** The code units of an ASCII literal of the source. *)
Definition utf16 (s : string) : jsstring :=
  N_of_ascii <$> String.list_ascii_of_string s.

(** [x < y] on strings, as the default comparator of [Array.prototype.sort]
    and the relational operators decide it: the first differing code unit
    decides, a proper prefix comes first. *)
Fixpoint IsLessThan (x y : jsstring) : bool :=
  match x, y with
  | _, [] => false
  | [], _ :: _ => true
  | a :: x', b :: y' =>
      if (a <? b)%N then true
      else if (b <? a)%N then false
      else IsLessThan x' y'
  end.

(** The order [sort()] leaves an array in: [y] is not less than [x]. *)
Definition code_unit_le (x y : jsstring) : Prop := IsLessThan y x = false.

#[global] Instance code_unit_le_dec x y : Decision (code_unit_le x y).
Proof. unfold code_unit_le. apply _. Defined.

(** [s.startsWith(p)]. *)
Fixpoint startsWith (s p : jsstring) : bool :=
  match p, s with
  | [], _ => true
  | _ :: _, [] => false
  | a :: p', b :: s' => (a =? b)%N && startsWith s' p'
  end.

(** [s.indexOf(needle)]: the first position at which [needle] occurs,
    [-1] when there is none. *)
Fixpoint indexOf_from (i : Z) (s needle : jsstring) : Z :=
  if startsWith s needle then i
  else match s with
       | [] => (-1)%Z
       | _ :: s' => indexOf_from (i + 1)%Z s' needle
       end.

Definition indexOf (s needle : jsstring) : Z := indexOf_from 0%Z s needle.

(** ** Values *)

(** The values that reach a tag: primitives, and objects as maps from
    property names to values. *)
Inductive value : Type :=
  | Undefined
  | Null
  | Bool (b : bool)
  | Num (z : Z)
  | Str (s : jsstring)
  | Obj (props : gmap jsstring value).

(** [v === 'literal']. *)
Definition strict_eq_str (v : value) (s : jsstring) : bool :=
  match v with
  | Str s' => bool_decide (s' = s)
  | _ => false
  end.

(** [o.k]: reading a property that is not there gives [undefined]. *)
Definition get_prop (o : gmap jsstring value) (k : jsstring) : value :=
  default Undefined (o !! k).

(** ** Regular expressions *)

(** A pattern of [fileWhitelist] or [fileBlacklist], by what the code asks of
    it: [regex.test(file)]. The patterns are taken without the [g] and [y]
    flags, for which [test] is a function of the subject alone (it neither
    reads nor moves [lastIndex]). *)
Record RegExp : Type := { test : jsstring → bool }.

(** [Array.prototype.includes] on an array of strings. *)
Definition includes (l : list jsstring) (x : jsstring) : bool :=
  bool_decide (x ∈ l).

(** ** The host's data *)

(** A location of the store: the identity of an array of file names. *)
Abbreviation loc := positive.

(** The arrays of file names that exist, by location. *)
Abbreviation store := (gmap positive (list jsstring)).

(** A chunk of the compilation. [generateLinks] reads [chunk.files] only;
    the name and the initial flag are what the extractor selects on. *)
Module Chunk.
Record t : Type := { name : option jsstring; initial : bool; files : loc }.
End Chunk.

(** A chunk of the stats snapshot [compilation.getStats().toJson({chunks:
    true}).chunks]: plain data, apart from the compilation's own chunks. *)
Module StatsChunk.
Record t : Type :=
  { files : list jsstring;
    names : list jsstring;
    idHints : list jsstring;
    size : Z;
    hash : jsstring }.
End StatsChunk.

(** What [htmlPluginData.assets.chunks] holds for one chunk name; a field is
    [None] while the object does not have it. *)
Module ChunkInfo.
Record t : Type :=
  { size : option Z;
    entry : option jsstring;
    hash : option jsstring;
    css : option (list jsstring) }.
End ChunkInfo.

Module Compilation.
Record t : Type :=
  { chunks : list Chunk.t;
    (** the keys of [compilation.assets] *)
    assets : list jsstring;
    (** [compilation.outputOptions.publicPath], [None] when undefined *)
    outputOptions_publicPath : option jsstring;
    hash : jsstring;
    (** [getStats().toJson({ chunks: true }).chunks] *)
    stats_chunks : list StatsChunk.t }.
End Compilation.

(** An object used as a table from chunk names to [A]: its properties in
    the order they were created. *)
Abbreviation object A := (list (jsstring * A)).

(** The document descriptor the HTML plugin hands to both hooks. *)
Module HtmlPluginData.
Record t : Type :=
  { (** [plugin.version]: undefined before version 4 of the HTML plugin *)
    plugin_version : option Z;
    plugin_options_filename : jsstring;
    (** [plugin.options.hash], by its truth value *)
    plugin_options_hash : bool;
    assets_js : list jsstring;
    assets_css : list jsstring;
    (** [assets.chunks]: the HTML plugin leaves it undefined from version
        4 on *)
    assets_chunks : option (object ChunkInfo.t);
    headTags : list value;
    head : list value }.
End HtmlPluginData.

(** [options.include]: undefined, a mode name, or a list of chunk names. *)
Inductive include_option : Type :=
  | IncludeUndefined
  | IncludeMode (mode : jsstring)
  | IncludeNames (names : list jsstring).

(** [options.as]: undefined, a fixed string, or a function. *)
Inductive as_option : Type :=
  | AsUndefined
  | AsString (s : jsstring)
  | AsFunction (f : jsstring → value).

(** [this.options], after the constructor has merged the defaults in. *)
Record Options : Type :=
  { rel : value;
    include : include_option;
    as_ : as_option;
    fileWhitelist : option (list RegExp);
    fileBlacklist : option (list RegExp);
    includeHtmlNames : option (list jsstring);
    excludeHtmlNames : option (list jsstring) }.

(** The plugin instance: [resourceHints] is undefined until
    [generateLinks] has run once. *)
Record PreloadPlugin : Type :=
  { options : Options;
    resourceHints : option (list value) }.

(** ** Own properties of a table, in JavaScript's order *)

Definition digit (c : N) : option N :=
  if (48 <=? c)%N && (c <=? 57)%N then Some (c - 48)%N else None.

Definition decimal (k : jsstring) : option N :=
  foldl (λ acc c, n ← acc; d ← digit c; Some (10 * n + d)%N) (Some 0%N) k.

(** The array index a property name denotes, if it is the canonical decimal
    form of an integer below [2^32 - 1]. *)
Definition array_index (k : jsstring) : option N :=
  match k with
  | [] => None
  | [c] => digit c
  | c :: _ =>
      if (c =? 48)%N then None
      else n ← decimal k; if (n <? 4294967295)%N then Some n else None
  end.

Definition index_le {A} (p q : N * A) : Prop := (p.1 ≤ q.1)%N.

#[global] Instance index_le_dec {A} (p q : N * A) : Decision (index_le p q).
Proof. unfold index_le. apply _. Defined.

(** The own properties as [Object.keys], [Object.values] and
    [Object.assign] visit them: array indices in ascending order first, then
    the other names in creation order. *)
Definition own_properties {A} (o : object A) : object A :=
  (merge_sort index_le
     (omap (λ p, (λ i, (i, p)) <$> array_index p.1) o)).*2
  ++ List.filter (λ p, bool_decide (array_index p.1 = None)) o.

Definition Object_values {A} (o : object A) : list A := (own_properties o).*2.

(** [o[k]]. *)
Definition obj_get {A} (o : object A) (k : jsstring) : option A :=
  snd <$> List.find (λ p, bool_decide (p.1 = k)) o.

(** [o[k] = v]: an existing property keeps its place. *)
Fixpoint obj_set {A} (k : jsstring) (v : A) (o : object A) : object A :=
  match o with
  | [] => [(k, v)]
  | p :: o' => if bool_decide (p.1 = k) then (k, v) :: o' else p :: obj_set k v o'
  end.

(** [Object.assign(target, source)]. *)
Definition Object_assign {A} (target source : object A) : object A :=
  foldl (λ t p, obj_set p.1 p.2 t) target (own_properties source).

(** ** State and exceptions *)

(** What a call can change: the plugin instance and the arrays. *)
Record state : Type := { this : PreloadPlugin; arrays : store }.

Inductive exn : Type := TypeError.

Inductive outcome (A : Type) : Type :=
  | Return (a : A)
  | Throw (e : exn).
Arguments Return {A} a.
Arguments Throw {A} e.

(** A computation: from a state to a result or an exception, and the state
    it leaves. *)
Definition M (A : Type) : Type := state → outcome A * state.

#[global] Instance M_ret : MRet M := λ A a st, (Return a, st).

#[global] Instance M_bind : MBind M := λ A B k m st,
  match m st with
  | (Return a, st') => k a st'
  | (Throw e, st') => (Throw e, st')
  end.

Definition throw {A} (e : exn) : M A := λ st, (Throw e, st).

(** [this.options]. *)
Definition this_options : M Options := λ st, (Return (options (this st)), st).

(** [this.resourceHints]. *)
Definition this_resourceHints : M (option (list value)) :=
  λ st, (Return (resourceHints (this st)), st).

(** [this.resourceHints = links]. *)
Definition set_resourceHints (links : list value) : M unit := λ st,
  (Return (),
   {| this := {| options := options (this st); resourceHints := Some links |};
      arrays := arrays st |}).

(** The arrays as they are now, for a helper that only reads them. *)
Definition get_arrays : M store := λ st, (Return (arrays st), st).

(** A call of a helper that may create arrays. *)
Definition call {A} (f : store → A * store) : M A := λ st,
  (Return (f (arrays st)).1, {| this := this st; arrays := (f (arrays st)).2 |}).

(** ** Arrays of file names *)

(** A new array: a location that holds none yet. *)
Definition alloc (xs : list jsstring) : M loc := λ st,
  let a := fresh (dom (arrays st)) in
  (Return a, {| this := this st; arrays := <[a := xs]> (arrays st) |}).

(** The elements of the array at [a]. *)
Definition read (a : loc) : M (list jsstring) := λ st,
  (Return (default [] (arrays st !! a)), st).

(** Overwriting the elements of the array at [a], in place. *)
Definition write (a : loc) (xs : list jsstring) : M unit := λ st,
  (Return (), {| this := this st; arrays := <[a := xs]> (arrays st) |}).

(** [a.concat(b)]: a new array. *)
Definition Array_concat (a b : loc) : M loc :=
  xs ← read a; ys ← read b; alloc (xs ++ ys).

(** [a.filter(callback)]: a new array. *)
Definition Array_filter (callback : jsstring → bool) (a : loc) : M loc :=
  xs ← read a; alloc (List.filter callback xs).

(** [a.sort()]: sorts the array at [a] in place, by [IsLessThan] on the
    elements, and returns [a] itself. The order is total on strings, so the
    result does not depend on the sorting algorithm. *)
Definition Array_sort (a : loc) : M loc :=
  xs ← read a; write a (merge_sort code_unit_le xs);; mret a.

(** [l.reduce(callback, init)] over an array that no callback changes. *)
Fixpoint Array_reduce {A B} (callback : B → A → M B) (init : B) (l : list A)
  : M B :=
  match l with
  | [] => mret init
  | x :: l' => acc ← callback init x; Array_reduce callback acc l'
  end.

(** [l.filter(callback)] with a callback that may throw. *)
Fixpoint Array_filterM {A} (callback : A → M bool) (l : list A) : M (list A) :=
  match l with
  | [] => mret []
  | x :: l' =>
      keep ← callback x;
      rest ← Array_filterM callback l';
      mret (if keep : bool then x :: rest else rest)
  end.

(** [s.add(x)] on a set, kept as its elements in insertion order. *)
Definition Set_add (s : list jsstring) (x : jsstring) : list jsstring :=
  if bool_decide (x ∈ s) then s else s ++ [x].

(** [new Set(a)]. *)
Definition new_Set (a : loc) : M (list jsstring) :=
  xs ← read a; mret (foldl Set_add [] xs).

(** [Object.values(o)]: a [TypeError] on undefined. *)
Definition Object_valuesM {A} (o : option (object A)) : M (list A) :=
  match o with
  | Some o => mret (Object_values o)
  | None => throw TypeError
  end.

(** [options.include === mode]. *)
Definition include_is (i : include_option) (mode : jsstring) : bool :=
  match i with
  | IncludeMode m => bool_decide (m = mode)
  | _ => false
  end.

(** [publicPath || '']. *)
Definition or_empty (publicPath : option jsstring) : jsstring :=
  match publicPath with
  | Some (c :: s) => c :: s
  | _ => []
  end.

(** ** generateLinks *)

Section PreloadPlugin.

(** [lib/extract-chunks]: the candidate chunks of a compilation for an
    inclusion mode; it may create arrays (the file list of a chunk it
    makes up). *)
Variable extractChunks :
  Compilation.t → include_option → store → list Chunk.t * store.

(** [lib/does-chunk-belong-to-html], given the chunk, the compilation and
    the values of [htmlPluginData.assets.chunks]. *)
Variable doesChunkBelongToHTML :
  store → Chunk.t → Compilation.t → list ChunkInfo.t → bool.

(** [lib/determine-as-value], given [href], [file] and [optionsAs]. *)
Variable determineAsValue : jsstring → jsstring → as_option → value.

(** The first [filter] callback of [generateLinks]. *)
Definition whitelisted (o : Options) (file : jsstring) : bool :=
  match fileWhitelist o with
  | None => true
  | Some l => existsb (λ regex, test regex file) l
  end.

(** The second [filter] callback of [generateLinks]. *)
Definition not_blacklisted (o : Options) (file : jsstring) : bool :=
  match fileBlacklist o with
  | None => true
  | Some l => forallb (λ regex, negb (test regex file)) l
  end.

(** The [attributes] object the loop body builds for [file]. *)
Definition link_attributes (o : Options) (publicPath file : jsstring)
  : gmap jsstring value :=
  let href := publicPath ++ file in
  let attributes : gmap jsstring value :=
    <[utf16 "href" := Str href]> (<[utf16 "rel" := rel o]> ∅) in
  if strict_eq_str (rel o) (utf16 "preload") then
    let attributes :=
      <[utf16 "as" := determineAsValue href file (as_ o)]> attributes in
    if strict_eq_str (get_prop attributes (utf16 "as")) (utf16 "font") then
      <[utf16 "crossorigin" := Str []]> attributes
    else attributes
  else attributes.

(** The object the loop body pushes for [file]. *)
Definition link_tag (o : Options) (publicPath file : jsstring) : value :=
  Obj (<[utf16 "tagName" := Str (utf16 "link")]>
       (<[utf16 "attributes" := Obj (link_attributes o publicPath file)]>
       (<[utf16 "voidTag" := Bool true]> ∅))).

Definition generateLinks (compilation : Compilation.t)
    (htmlPluginData : HtmlPluginData.t) : M HtmlPluginData.t :=
  options ← this_options;
  extractedChunks ← call (extractChunks compilation (include options));
  htmlChunks ←
    (if include_is (include options) (utf16 "allAssets") then
       mret extractedChunks
     else
       Array_filterM (λ chunk,
         htmlAssetsChunks ←
           Object_valuesM (HtmlPluginData.assets_chunks htmlPluginData);
         σ ← get_arrays;
         mret (doesChunkBelongToHTML σ chunk compilation htmlAssetsChunks))
         extractedChunks);
  empty ← alloc [];
  allFiles ←
    Array_reduce (λ accumulated chunk,
      Array_concat accumulated (Chunk.files chunk)) empty htmlChunks;
  uniqueFiles ← new_Set allFiles;
  spread ← alloc uniqueFiles;
  passed ← Array_filter (whitelisted options) spread;
  filteredFiles ← Array_filter (not_blacklisted options) passed;
  sortedFilteredFiles ← Array_sort filteredFiles;
  let publicPath :=
    or_empty (Compilation.outputOptions_publicPath compilation) in
  files ← read sortedFilteredFiles;
  let links :=
    foldl (λ links file, links ++ [link_tag options publicPath file]) [] files in
  set_resourceHints links;;
  mret htmlPluginData.

(** ** apply: the closures and the two hook callbacks *)

(** [skip]: whether the document is left alone. [include] and [exclude] are
    arrays when set, which are truthy even when empty. *)
Definition skip (o : Options) (data : HtmlPluginData.t) : bool :=
  let htmlFilename := HtmlPluginData.plugin_options_filename data in
  let exclude := excludeHtmlNames o in
  let include := includeHtmlNames o in
  match include with
  | Some include => negb (includes include htmlFilename)
  | None => false
  end
  || match exclude with
     | Some exclude => includes exclude htmlFilename
     | None => false
     end.

(** [appendHash]: [url] is a string at its one call site, and a string is
    falsy exactly when it is empty. *)
Definition appendHash (url hash : jsstring) : jsstring :=
  match url with
  | [] => url
  | _ =>
      url
      ++ (if (indexOf url (utf16 "?") =? -1)%Z then utf16 "?" else utf16 "&")
      ++ hash
  end.

(** A line terminator, which [.] does not match. *)
Definition line_terminator (c : N) : bool :=
  (c =? 10)%N || (c =? 13)%N || (c =? 8232)%N || (c =? 8233)%N.

(** [/.EXT($|\?)/.test(s)] for a literal [EXT]: somewhere in [s] a code
    unit that is no line terminator, then [EXT], then the end of [s] or a
    question mark. *)
Fixpoint test_dot (ext s : jsstring) : bool :=
  match s with
  | [] => false
  | c :: s' =>
      (negb (line_terminator c)
       && startsWith s' ext
       && match drop (length ext) s' with
          | [] => true
          | q :: _ => (q =? 63)%N
          end)
      || test_dot ext s'
  end.

(** [chunk.names[0] || chunk.idHints[0]], as the property name it is used
    as: undefined becomes the name [undefined]. *)
Definition chunkName_of (chunk : StatsChunk.t) : jsstring :=
  match StatsChunk.names chunk with
  | (c :: s) :: _ => c :: s
  | _ =>
      match StatsChunk.idHints chunk with
      | hint :: _ => hint
      | [] => utf16 "undefined"
      end
  end.

(** The reducer [buildReducer(compilation, htmlPluginData)] returns. *)
Definition buildReducer (compilation : Compilation.t)
    (htmlPluginData : HtmlPluginData.t)
    (chunks_ : object ChunkInfo.t) (chunk : StatsChunk.t)
  : object ChunkInfo.t :=
  let publicPath :=
    or_empty (Compilation.outputOptions_publicPath compilation) in
  let chunkFiles :=
    (λ chunkFile, publicPath ++ chunkFile) <$> StatsChunk.files chunk in
  if existsb (λ file,
       includes (HtmlPluginData.assets_js htmlPluginData) file
       || includes (HtmlPluginData.assets_css htmlPluginData) file) chunkFiles
  then
    let chunkName := chunkName_of chunk in
    let info :=
      {| ChunkInfo.size := None; ChunkInfo.entry := None;
         ChunkInfo.hash := None; ChunkInfo.css := None |} in
    let chunks_ := obj_set chunkName info chunks_ in
    let chunkFiles :=
      if HtmlPluginData.plugin_options_hash htmlPluginData then
        (λ chunkFile, appendHash chunkFile (Compilation.hash compilation))
          <$> chunkFiles
      else chunkFiles in
    let js := List.find (test_dot (utf16 "js")) chunkFiles in
    let info :=
      match js with
      | Some (c :: s) =>
          {| ChunkInfo.size := Some (StatsChunk.size chunk);
             ChunkInfo.entry := Some (c :: s);
             ChunkInfo.hash := Some (StatsChunk.hash chunk);
             ChunkInfo.css := ChunkInfo.css info |}
      | _ => info
      end in
    let css := List.filter (test_dot (utf16 "css")) chunkFiles in
    let info :=
      {| ChunkInfo.size := ChunkInfo.size info;
         ChunkInfo.entry := ChunkInfo.entry info;
         ChunkInfo.hash := ChunkInfo.hash info;
         ChunkInfo.css := Some css |} in
    obj_set chunkName info chunks_
  else chunks_.

(** [htmlPluginData.plugin.version >= 4]. *)
Definition version_ge_4 (data : HtmlPluginData.t) : bool :=
  match HtmlPluginData.plugin_version data with
  | Some v => (4 <=? v)%Z
  | None => false
  end.

(** [htmlPluginData.assets.chunks = chunks]. *)
Definition set_assets_chunks (data : HtmlPluginData.t)
    (chunks : object ChunkInfo.t) : HtmlPluginData.t :=
  {| HtmlPluginData.plugin_version := HtmlPluginData.plugin_version data;
     HtmlPluginData.plugin_options_filename :=
       HtmlPluginData.plugin_options_filename data;
     HtmlPluginData.plugin_options_hash :=
       HtmlPluginData.plugin_options_hash data;
     HtmlPluginData.assets_js := HtmlPluginData.assets_js data;
     HtmlPluginData.assets_css := HtmlPluginData.assets_css data;
     HtmlPluginData.assets_chunks := Some chunks;
     HtmlPluginData.headTags := HtmlPluginData.headTags data;
     HtmlPluginData.head := HtmlPluginData.head data |}.

(** [htmlPluginData.headTags = tags]. *)
Definition set_headTags (data : HtmlPluginData.t) (tags : list value)
  : HtmlPluginData.t :=
  {| HtmlPluginData.plugin_version := HtmlPluginData.plugin_version data;
     HtmlPluginData.plugin_options_filename :=
       HtmlPluginData.plugin_options_filename data;
     HtmlPluginData.plugin_options_hash :=
       HtmlPluginData.plugin_options_hash data;
     HtmlPluginData.assets_js := HtmlPluginData.assets_js data;
     HtmlPluginData.assets_css := HtmlPluginData.assets_css data;
     HtmlPluginData.assets_chunks := HtmlPluginData.assets_chunks data;
     HtmlPluginData.headTags := tags;
     HtmlPluginData.head := HtmlPluginData.head data |}.

(** [htmlPluginData.head = tags]. *)
Definition set_head (data : HtmlPluginData.t) (tags : list value)
  : HtmlPluginData.t :=
  {| HtmlPluginData.plugin_version := HtmlPluginData.plugin_version data;
     HtmlPluginData.plugin_options_filename :=
       HtmlPluginData.plugin_options_filename data;
     HtmlPluginData.plugin_options_hash :=
       HtmlPluginData.plugin_options_hash data;
     HtmlPluginData.assets_js := HtmlPluginData.assets_js data;
     HtmlPluginData.assets_css := HtmlPluginData.assets_css data;
     HtmlPluginData.assets_chunks := HtmlPluginData.assets_chunks data;
     HtmlPluginData.headTags := HtmlPluginData.headTags data;
     HtmlPluginData.head := tags |}.

(** The callback tapped on the before hook. It returns undefined; the
    result here is the descriptor as the call leaves it. *)
Definition beforeHook (compilation : Compilation.t)
    (htmlPluginData : HtmlPluginData.t) : M HtmlPluginData.t :=
  let htmlPluginData :=
    if version_ge_4 htmlPluginData then
      let chunks := Compilation.stats_chunks compilation in
      set_assets_chunks htmlPluginData
        (Object_assign
           (default [] (HtmlPluginData.assets_chunks htmlPluginData))
           (foldl (buildReducer compilation htmlPluginData) [] chunks))
    else htmlPluginData in
  o ← this_options;
  if skip o htmlPluginData then mret htmlPluginData
  else generateLinks compilation htmlPluginData.

(** The callback tapped on the after hook: the descriptor as the call
    leaves it, and whether the call returned it ([false]: it returned
    undefined). *)
Definition afterHook (htmlPluginData : HtmlPluginData.t)
  : M (HtmlPluginData.t * bool) :=
  o ← this_options;
  if skip o htmlPluginData then mret (htmlPluginData, false)
  else
    hints ← this_resourceHints;
    let htmlPluginData :=
      match hints with
      | Some resourceHints =>
          if version_ge_4 htmlPluginData then
            set_headTags htmlPluginData
              (resourceHints ++ HtmlPluginData.headTags htmlPluginData)
          else
            set_head htmlPluginData
              (resourceHints ++ HtmlPluginData.head htmlPluginData)
      | None => htmlPluginData
      end in
    mret (htmlPluginData, true).

End PreloadPlugin.

(** ** What the claims speak of *)

(** A high surrogate, a low surrogate. *)
Definition high_surrogate (c : N) : bool := (55296 <=? c)%N && (c <=? 56319)%N.
Definition low_surrogate (c : N) : bool := (56320 <=? c)%N && (c <=? 57343)%N.

(** The code points of a string, as [String.prototype.codePointAt] reads
    them: a high surrogate followed by a low one is one code point above
    [0xFFFF], any other code unit is its own code point. *)
Fixpoint code_points (s : jsstring) : list N :=
  match s with
  | [] => []
  | h :: s' =>
      match s' with
      | l :: s'' =>
          if high_surrogate h && low_surrogate l then
            (65536 + (h - 55296) * 1024 + (l - 56320))%N :: code_points s''
          else h :: code_points s'
      | [] => [h]
      end
  end.

(** Lexicographic order of the code points. *)
Definition code_point_le (x y : jsstring) : Prop :=
  IsLessThan (code_points y) (code_points x) = false.

#[global] Instance code_point_le_dec x y : Decision (code_point_le x y).
Proof. unfold code_point_le. apply _. Defined.

(** The [attributes] of a tag, if it has them. *)
Definition attributes_of (tag : value) : option (gmap jsstring value) :=
  match tag with
  | Obj o => match o !! utf16 "attributes" with
             | Some (Obj a) => Some a
             | _ => None
             end
  | _ => None
  end.

(** The [href] of a tag, if it has one that is a string. *)
Definition href_of (tag : value) : option jsstring :=
  a ← attributes_of tag;
  match a !! utf16 "href" with
  | Some (Str s) => Some s
  | _ => None
  end.

(** The head-tag list of a descriptor: [headTags] from version 4 of the
    HTML plugin on, [head] before. *)
Definition head_tag_list (data : HtmlPluginData.t) : list value :=
  if version_ge_4 data then HtmlPluginData.headTags data
  else HtmlPluginData.head data.

(** How often the code unit [c] occurs in [s]. *)
Definition occurrences (c : N) (s : jsstring) : nat :=
  length (List.filter (N.eqb c) s).

(** The file names a list of chunks contributes: their [files], in order. *)
Definition contributed (σ : store) (chunks : list Chunk.t) : list jsstring :=
  chunk ← chunks; default [] (σ !! Chunk.files chunk).

(** ** Running a computation *)

(** [Q] holds of the result and the final state of [m] run from [st]. *)
Definition wp {A} (m : M A) (st : state) (Q : outcome A → state → Prop) : Prop :=
  Q (m st).1 (m st).2.

(** The names that come out of the two filters and the sort, from the
    flattened list of files. *)
Definition kept_files (o : Options) (files : list jsstring) : list jsstring :=
  merge_sort code_unit_le
    (List.filter (not_blacklisted o)
       (List.filter (whitelisted o) (foldl Set_add [] files))).

(** The chunks [generateLinks] selects among the extracted ones. *)
Definition htmlChunks_of
    (doesChunkBelongToHTML :
       store → Chunk.t → Compilation.t → list ChunkInfo.t → bool)
    (σ : store) (o : Options) (c : Compilation.t)
    (d : HtmlPluginData.t) (extracted : list Chunk.t) : list Chunk.t :=
  if include_is (include o) (utf16 "allAssets") then extracted
  else match HtmlPluginData.assets_chunks d with
       | Some obj =>
           List.filter (λ chunk,
             doesChunkBelongToHTML σ chunk c (Object_values obj)) extracted
       | None => []
       end.

(** The result and the final state of [generateLinks], from the plugin
    [T] and the arrays [σ]. *)
Definition generateLinks_post
    (extractChunks :
       Compilation.t → include_option → store → list Chunk.t * store)
    (doesChunkBelongToHTML :
       store → Chunk.t → Compilation.t → list ChunkInfo.t → bool)
    (determineAsValue : jsstring → jsstring → as_option → value)
    (T : PreloadPlugin) (σ : store)
    (c : Compilation.t) (d : HtmlPluginData.t)
    (res : outcome HtmlPluginData.t) (st' : state) : Prop :=
  let o := options T in
  let r := extractChunks c (include o) σ in
  (∀ a xs, σ ⊆ r.2 → σ !! a = Some xs → arrays st' !! a = Some xs) ∧
  options (this st') = o ∧
  match res with
  | Throw _ =>
      resourceHints (this st') = resourceHints T ∧
      include_is (include o) (utf16 "allAssets") = false ∧
      HtmlPluginData.assets_chunks d = None
  | Return x =>
      x = d ∧
      ∃ files,
        (Forall (λ ch, is_Some (r.2 !! Chunk.files ch)) r.1 →
         files = contributed r.2
                   (htmlChunks_of doesChunkBelongToHTML r.2 o c d r.1)) ∧
        resourceHints (this st') =
          Some (link_tag determineAsValue o
                  (or_empty (Compilation.outputOptions_publicPath c))
                <$> kept_files o files)
  end.

(** [generateLinks] can read the chunks of the document: either it does
    not ask ([include] is "allAssets") or [assets.chunks] is there. *)
Definition chunks_readable (o : Options) (d : HtmlPluginData.t) : Prop :=
  include_is (include o) (utf16 "allAssets") = true
  ∨ is_Some (HtmlPluginData.assets_chunks d).

(** A link descriptor whose void-element marker is the property [marker]:
    [{ tagName: "link", attributes: {href, rel, as?, crossorigin?},
       marker: true }]. *)
Definition descriptor_shape (marker : jsstring) (tag : value) : Prop :=
  ∃ a : gmap jsstring value,
    tag = Obj (<[utf16 "tagName" := Str (utf16 "link")]>
              (<[utf16 "attributes" := Obj a]>
              (<[marker := Bool true]> ∅)))
    ∧ {[utf16 "href"; utf16 "rel"]} ⊆ dom a
    ∧ dom a ⊆ {[utf16 "href"; utf16 "rel"; utf16 "as"; utf16 "crossorigin"]}.

(** The descriptors are those of the paths [fs], in this order, and [fs]
    ascends along [R]. *)
Definition ordered_by (R : relation jsstring) (publicPath : jsstring)
    (links : list value) (fs : list jsstring) : Prop :=
  href_of <$> links = (λ f, Some (publicPath ++ f)) <$> fs
  ∧ StronglySorted R fs.

(** ** What a computation does not read *)

(** The state with the pending hints replaced. *)
Definition with_hints (h : option (list value)) (st : state) : state :=
  {| this := {| options := options (this st); resourceHints := h |};
     arrays := arrays st |}.

(** [m] does not read [this.resourceHints]: from a state with other
    pending hints it gives the same result, and the same final state up to
    the pending hints, which it either has set itself or left as found. *)
Definition oblivious {A} (m : M A) : Prop :=
  ∀ st, ∃ touched : bool, ∀ h,
    m (with_hints h st) =
    ((m st).1, if touched then (m st).2 else with_hints h (m st).2).

(** ** The helpers of [./lib/], for running the code on examples *)

(** Modelled from the spec: [lib/extract-chunks] is not among the sources.
    Section 4.1 and 4.3 step 1: the chunks that satisfy the mode, in order;
    for "all assets" every asset file of the compilation, as the files of
    one chunk made up for them. A list of names selects the chunks so
    named; with no mode set there is no filtering. *)
Definition extractChunks_model (compilation : Compilation.t)
    (optionsInclude : include_option) (σ : store) : list Chunk.t * store :=
  let chunks := Compilation.chunks compilation in
  match optionsInclude with
  | IncludeUndefined => (chunks, σ)
  | IncludeNames names =>
      (List.filter (λ chunk,
         match Chunk.name chunk with
         | Some n => includes names n
         | None => false
         end) chunks, σ)
  | IncludeMode mode =>
      if bool_decide (mode = utf16 "allAssets") then
        let a := fresh (dom σ) in
        ([{| Chunk.name := None; Chunk.initial := false; Chunk.files := a |}],
         <[a := Compilation.assets compilation]> σ)
      else if bool_decide (mode = utf16 "allChunks") then (chunks, σ)
      else if bool_decide (mode = utf16 "initial") then
        (List.filter Chunk.initial chunks, σ)
      else if bool_decide (mode = utf16 "asyncChunks") then
        (List.filter (λ chunk, negb (Chunk.initial chunk)) chunks, σ)
      else ([], σ)
  end.

(** Modelled from the spec: [lib/does-chunk-belong-to-html] is not among
    the sources. Section 4.2: true if any file owned by the chunk appears
    among the files the document references (scripts and styles). *)
Definition doesChunkBelongToHTML_model (σ : store) (chunk : Chunk.t)
    (compilation : Compilation.t) (htmlAssetsChunks : list ChunkInfo.t) : bool :=
  let referenced :=
    info ← htmlAssetsChunks;
    option_list (ChunkInfo.entry info) ++ default [] (ChunkInfo.css info) in
  existsb (includes referenced) (default [] (σ !! Chunk.files chunk)).

(** The extension of a file name: from its last dot on, empty without one. *)
Fixpoint extname (file : jsstring) : jsstring :=
  match file with
  | [] => []
  | c :: file' =>
      match extname file' with
      | [] => if (c =? 46)%N then c :: file' else []
      | ext => ext
      end
  end.

(** Modelled from the spec: [lib/determine-as-value] is not among the
    sources. Section 4.4: a fixed string, or a function of the file
    extension, or by default [.css] to style, [.js] to script, [.woff],
    [.woff2], [.ttf], [.eot] to font, an image extension to image, and
    otherwise no value. The spec does not list the image extensions:
    [images] stands for them. *)
Definition determineAsValue_model (images : list jsstring)
    (href file : jsstring) (optionsAs : as_option) : value :=
  let ext := extname file in
  match optionsAs with
  | AsString s => Str s
  | AsFunction f => f ext
  | AsUndefined =>
      if bool_decide (ext = utf16 ".css") then Str (utf16 "style")
      else if bool_decide (ext = utf16 ".js") then Str (utf16 "script")
      else if includes (utf16 <$> [".woff"; ".woff2"; ".ttf"; ".eot"]) ext
      then Str (utf16 "font")
      else if includes images ext then Str (utf16 "image")
      else Undefined
  end.

(** The plugin code over these helpers. *)
Definition run_generateLinks (images : list jsstring) :=
  generateLinks extractChunks_model doesChunkBelongToHTML_model
    (determineAsValue_model images).

(** ** Examples *)

(** Two chunks that share [shared.js], over the public path [/static/]. *)
Definition example_store : store :=
  <[1%positive := utf16 <$> ["main.js"; "shared.js"]]>
  (<[2%positive := utf16 <$> ["vendor.css"; "shared.js"; "font.woff2"]]> ∅).

Definition example_compilation : Compilation.t :=
  {| Compilation.chunks :=
       [ {| Chunk.name := Some (utf16 "main"); Chunk.initial := true;
            Chunk.files := 1%positive |};
         {| Chunk.name := Some (utf16 "vendor"); Chunk.initial := false;
            Chunk.files := 2%positive |} ];
     Compilation.assets :=
       utf16 <$> ["main.js"; "shared.js"; "vendor.css"; "font.woff2"];
     Compilation.outputOptions_publicPath := Some (utf16 "/static/");
     Compilation.hash := utf16 "abc";
     Compilation.stats_chunks := [] |}.

(** [index.html], from version 3 of the HTML plugin, with one tag in its
    head already. *)
Definition example_document : HtmlPluginData.t :=
  {| HtmlPluginData.plugin_version := None;
     HtmlPluginData.plugin_options_filename := utf16 "index.html";
     HtmlPluginData.plugin_options_hash := false;
     HtmlPluginData.assets_js := [utf16 "/static/main.js"];
     HtmlPluginData.assets_css := [utf16 "/static/vendor.css"];
     HtmlPluginData.assets_chunks :=
       Some [ (utf16 "main",
               {| ChunkInfo.size := Some 10%Z;
                  ChunkInfo.entry := Some (utf16 "main.js");
                  ChunkInfo.hash := Some (utf16 "h1");
                  ChunkInfo.css := Some [] |});
              (utf16 "vendor",
               {| ChunkInfo.size := None;
                  ChunkInfo.entry := None;
                  ChunkInfo.hash := None;
                  ChunkInfo.css := Some [utf16 "vendor.css"] |}) ];
     HtmlPluginData.headTags := [];
     HtmlPluginData.head :=
       [Obj (<[utf16 "tagName" := Str (utf16 "meta")]> ∅)] |}.

Definition example_options (rel : string) : Options :=
  {| rel := Str (utf16 rel);
     include := IncludeMode (utf16 "allChunks");
     as_ := AsUndefined;
     fileWhitelist := None;
     fileBlacklist := None;
     includeHtmlNames := None;
     excludeHtmlNames := None |}.

Definition example_state (rel : string) : state :=
  {| this := {| options := example_options rel; resourceHints := None |};
     arrays := example_store |}.

(** The same with the whitelist [/.js($|\?)/] and the blacklist
    [/^shared/]. *)
Definition example_filter_state : state :=
  {| this :=
       {| options :=
            {| rel := Str (utf16 "preload");
               include := IncludeMode (utf16 "allChunks");
               as_ := AsUndefined;
               fileWhitelist := Some [ {| test := test_dot (utf16 "js") |} ];
               fileBlacklist :=
                 Some [ {| test := λ file, startsWith file (utf16 "shared") |} ];
               includeHtmlNames := None;
               excludeHtmlNames := None |};
          resourceHints := None |};
     arrays := example_store |}.

(** The same with [index.html] excluded. *)
Definition example_exclude_state : state :=
  {| this :=
       {| options :=
            {| rel := Str (utf16 "preload");
               include := IncludeMode (utf16 "allChunks");
               as_ := AsUndefined;
               fileWhitelist := None;
               fileBlacklist := None;
               includeHtmlNames := None;
               excludeHtmlNames := Some [utf16 "index.html"] |};
          resourceHints := None |};
     arrays := example_store |}.

(** A state with one hint pending. *)
Definition example_pending_state : state :=
  {| this :=
       {| options := example_options "preload";
          resourceHints :=
            Some [link_tag (determineAsValue_model []) (example_options "preload")
                    (utf16 "/static/") (utf16 "main.js")] |};
     arrays := example_store |}.

(** A compilation whose two assets are named U+FF5E and U+1F600, each
    followed by [.js]; with all assets included and no public path. *)
Definition example_wide_compilation : Compilation.t :=
  {| Compilation.chunks := [];
     Compilation.assets :=
       [ [65374; 46; 106; 115]%N; [55357; 56832; 46; 106; 115]%N ];
     Compilation.outputOptions_publicPath := None;
     Compilation.hash := utf16 "abc";
     Compilation.stats_chunks := [] |}.

Definition example_wide_state : state :=
  {| this :=
       {| options :=
            {| rel := Str (utf16 "preload");
               include := IncludeMode (utf16 "allAssets");
               as_ := AsUndefined;
               fileWhitelist := None;
               fileBlacklist := None;
               includeHtmlNames := None;
               excludeHtmlNames := None |};
          resourceHints := None |};
     arrays := ∅ |}.

(** ** The reducer's vocabulary *)

(** The files of a stats chunk under the public path, as [buildReducer]
    first maps them. *)
Definition chunk_urls (c : Compilation.t) (chunk : StatsChunk.t)
  : list jsstring :=
  (λ chunkFile,
     or_empty (Compilation.outputOptions_publicPath c) ++ chunkFile)
  <$> StatsChunk.files chunk.

(** The test of [buildReducer] on one file: it is among the scripts or the
    styles of the document. *)
Definition referenced_by (d : HtmlPluginData.t) (file : jsstring) : bool :=
  includes (HtmlPluginData.assets_js d) file
  || includes (HtmlPluginData.assets_css d) file.

(** The urls [buildReducer] records for a chunk: with the compilation hash
    appended when the document asks for it. *)
Definition recorded_urls (c : Compilation.t) (d : HtmlPluginData.t)
    (chunk : StatsChunk.t) : list jsstring :=
  if HtmlPluginData.plugin_options_hash d then
    (λ chunkFile, appendHash chunkFile (Compilation.hash c))
    <$> chunk_urls c chunk
  else chunk_urls c chunk.

(** ** Examples for the hooks *)

(** The example compilation with a stats snapshot of three chunks: [main],
    an unnamed chunk with the hint [vendors], and a chunk the document does
    not reference. *)
Definition example_stats_compilation : Compilation.t :=
  {| Compilation.chunks := Compilation.chunks example_compilation;
     Compilation.assets := Compilation.assets example_compilation;
     Compilation.outputOptions_publicPath := Some (utf16 "/static/");
     Compilation.hash := utf16 "abc";
     Compilation.stats_chunks :=
       [ {| StatsChunk.files :=
              utf16 <$> ["main.js"; "main.css"; "main.js.map"];
            StatsChunk.names := [utf16 "main"];
            StatsChunk.idHints := [];
            StatsChunk.size := 10%Z;
            StatsChunk.hash := utf16 "h1" |};
         {| StatsChunk.files := utf16 <$> ["vendor.css"];
            StatsChunk.names := [];
            StatsChunk.idHints := [utf16 "vendors"];
            StatsChunk.size := 20%Z;
            StatsChunk.hash := utf16 "h2" |};
         {| StatsChunk.files := utf16 <$> ["other.js"];
            StatsChunk.names := [utf16 "other"];
            StatsChunk.idHints := [];
            StatsChunk.size := 30%Z;
            StatsChunk.hash := utf16 "h3" |} ] |}.

(** [index.html] from version 4 of the HTML plugin, which asks for the
    hash and brings no [assets.chunks]. *)
Definition example_v4_document : HtmlPluginData.t :=
  {| HtmlPluginData.plugin_version := Some 4%Z;
     HtmlPluginData.plugin_options_filename := utf16 "index.html";
     HtmlPluginData.plugin_options_hash := true;
     HtmlPluginData.assets_js := [utf16 "/static/main.js"];
     HtmlPluginData.assets_css :=
       utf16 <$> ["/static/main.css"; "/static/vendor.css"];
     HtmlPluginData.assets_chunks := None;
     HtmlPluginData.headTags :=
       [Obj (<[utf16 "tagName" := Str (utf16 "title")]> ∅)];
     HtmlPluginData.head := [] |}.

(** The example state with an empty whitelist array. *)
Definition example_empty_whitelist_state : state :=
  {| this :=
       {| options :=
            {| rel := Str (utf16 "preload");
               include := IncludeMode (utf16 "allChunks");
               as_ := AsUndefined;
               fileWhitelist := Some [];
               fileBlacklist := None;
               includeHtmlNames := None;
               excludeHtmlNames := None |};
          resourceHints := None |};
     arrays := example_store |}.

(** The example compilation with its two chunks in the other order. *)
Definition example_reversed_compilation : Compilation.t :=
  {| Compilation.chunks := rev (Compilation.chunks example_compilation);
     Compilation.assets := Compilation.assets example_compilation;
     Compilation.outputOptions_publicPath := Some (utf16 "/static/");
     Compilation.hash := utf16 "abc";
     Compilation.stats_chunks := [] |}.

(** * Properties *)

(** ** The order of [sort()] *)

Lemma IsLessThan_nil_r x : IsLessThan x [] = false.
Proof. by destruct x. Qed.

Lemma IsLessThan_cons a x b y :
  IsLessThan (a :: x) (b :: y) = false ↔
  (b ≤ a)%N ∧ ((b < a)%N ∨ IsLessThan x y = false).
Proof.
  simpl. destruct (N.ltb_spec a b), (N.ltb_spec b a).
  - lia.
  - split; [done|]. intros [? _]. lia.
  - split; [|done]. intros _. split; [lia|]. left. lia.
  - split.
    + intros. split; [done|]. by right.
    + intros [_ [?|?]]; [lia|done].
Qed.

#[global] Instance code_unit_le_total : Total code_unit_le.
Proof.
  intros x y. unfold code_unit_le. revert y.
  induction x as [|a x IH]; intros [|b y]; simpl; auto.
  change (IsLessThan (b :: y) (a :: x) = false
          ∨ IsLessThan (a :: x) (b :: y) = false).
  rewrite !IsLessThan_cons.
  destruct (IH y) as [H|H], (N.lt_trichotomy a b) as [?|[?|?]];
    first [ left; split; [lia|]; first [by right | left; lia]
          | right; split; [lia|]; first [by right | left; lia] ].
Qed.

#[global] Instance code_unit_le_trans : Transitive code_unit_le.
Proof.
  intros x y z. unfold code_unit_le. revert y z.
  induction x as [|a x IH]; intros y z Hxy Hyz.
  - apply IsLessThan_nil_r.
  - destruct y as [|b y]; [done|]. destruct z as [|c z]; [done|].
    rewrite IsLessThan_cons in *.
    destruct Hxy as [? Hxy], Hyz as [? Hyz]. split; [lia|].
    destruct Hxy as [?|Hxy]; [left; lia|].
    destruct Hyz as [?|Hyz]; [left; lia|].
    right. by apply (IH y z).
Qed.

#[global] Instance code_unit_le_antisym : AntiSymm eq code_unit_le.
Proof.
  intros x y. unfold code_unit_le. revert y.
  induction x as [|a x IH]; intros [|b y] Hxy Hyx; try done.
  rewrite IsLessThan_cons in *.
  destruct Hxy as [? [?|Hxy]], Hyx as [? [?|Hyx]]; try lia.
  assert (a = b) as -> by lia. f_equal. by apply IH.
Qed.

Lemma code_points_cons2 h l s :
  code_points (h :: l :: s) =
  if high_surrogate h && low_surrogate l then
    (65536 + (h - 55296) * 1024 + (l - 56320))%N :: code_points s
  else h :: code_points (l :: s).
Proof. done. Qed.

(** A string without high surrogates is the list of its own code points. *)
Lemma code_points_no_surrogate s :
  Forall (λ c, high_surrogate c = false) s → code_points s = s.
Proof.
  induction 1 as [|h s' Hh Hs IH]; [done|].
  destruct s' as [|l s'']; [done|].
  by rewrite code_points_cons2, Hh, IH.
Qed.

(** ** Sets by insertion order *)

Lemma elem_of_Set_add s x y : y ∈ Set_add s x ↔ y ∈ s ∨ y = x.
Proof.
  unfold Set_add. case_bool_decide.
  - split; [auto|]. by intros [?| ->].
  - rewrite elem_of_app, list_elem_of_singleton. done.
Qed.

Lemma NoDup_Set_add s x : NoDup s → NoDup (Set_add s x).
Proof.
  intros Hs. unfold Set_add. case_bool_decide; [done|].
  apply NoDup_app. split_and!; [done| |apply NoDup_singleton].
  intros y Hy ->%list_elem_of_singleton. done.
Qed.

Lemma elem_of_foldl_Set_add xs s y :
  y ∈ foldl Set_add s xs ↔ y ∈ s ∨ y ∈ xs.
Proof.
  revert s. induction xs as [|x xs IH]; intros s; simpl.
  - rewrite elem_of_nil. tauto.
  - rewrite IH, elem_of_Set_add, elem_of_cons. tauto.
Qed.

Lemma NoDup_foldl_Set_add xs s : NoDup s → NoDup (foldl Set_add s xs).
Proof.
  revert s. induction xs as [|x xs IH]; intros s Hs; simpl; [done|].
  by apply IH, NoDup_Set_add.
Qed.

(** Pushing one tag per file builds the list of the tags, in order. *)
Lemma foldl_push {A B} (f : A → B) (xs : list A) (acc : list B) :
  foldl (λ links x, links ++ [f x]) acc xs = acc ++ (f <$> xs).
Proof.
  revert acc. induction xs as [|x xs IH]; intros acc; simpl.
  - by rewrite app_nil_r.
  - by rewrite IH, <-app_assoc.
Qed.

(** ** Running a computation *)

Lemma wp_ret {A} (a : A) st Q : Q (Return a) st → wp (mret a) st Q.
Proof. done. Qed.

Lemma wp_bind {A B} (m : M A) (k : A → M B) st Q :
  wp m st (λ r st',
    match r with
    | Return a => wp (k a) st' Q
    | Throw e => Q (Throw e) st'
    end) →
  wp (m ≫= k) st Q.
Proof.
  unfold wp, mbind, M_bind. by destruct (m st) as [[a|e] st'].
Qed.

Lemma wp_wand {A} (m : M A) st (P Q : outcome A → state → Prop) :
  wp m st P → (∀ r st', P r st' → Q r st') → wp m st Q.
Proof. unfold wp. auto. Qed.

Lemma wp_throw {A} e st (Q : outcome A → state → Prop) :
  Q (Throw e) st → wp (throw e) st Q.
Proof. done. Qed.

Lemma wp_this_options st Q :
  Q (Return (options (this st))) st → wp this_options st Q.
Proof. done. Qed.

Lemma wp_this_resourceHints st Q :
  Q (Return (resourceHints (this st))) st → wp this_resourceHints st Q.
Proof. done. Qed.

Lemma wp_set_resourceHints links T σ Q :
  Q (Return ())
    {| this := {| options := options T; resourceHints := Some links |};
       arrays := σ |} →
  wp (set_resourceHints links) {| this := T; arrays := σ |} Q.
Proof. done. Qed.

Lemma wp_get_arrays T σ Q :
  Q (Return σ) {| this := T; arrays := σ |} →
  wp get_arrays {| this := T; arrays := σ |} Q.
Proof. done. Qed.

Lemma wp_call {A} (f : store → A * store) T σ Q :
  Q (Return (f σ).1) {| this := T; arrays := (f σ).2 |} →
  wp (call f) {| this := T; arrays := σ |} Q.
Proof. done. Qed.

Lemma wp_alloc xs T σ Q :
  (∀ a, σ !! a = None →
        Q (Return a) {| this := T; arrays := <[a := xs]> σ |}) →
  wp (alloc xs) {| this := T; arrays := σ |} Q.
Proof.
  intros HQ. apply HQ. apply not_elem_of_dom, is_fresh.
Qed.

Lemma wp_read a xs T σ Q :
  σ !! a = Some xs →
  Q (Return xs) {| this := T; arrays := σ |} →
  wp (read a) {| this := T; arrays := σ |} Q.
Proof. unfold wp, read. simpl. by intros ->. Qed.

Lemma wp_read_any a T σ Q :
  Q (Return (default [] (σ !! a))) {| this := T; arrays := σ |} →
  wp (read a) {| this := T; arrays := σ |} Q.
Proof. done. Qed.

Lemma wp_write a xs T σ Q :
  Q (Return ()) {| this := T; arrays := <[a := xs]> σ |} →
  wp (write a xs) {| this := T; arrays := σ |} Q.
Proof. done. Qed.

Lemma wp_Array_filter callback a xs T σ Q :
  σ !! a = Some xs →
  (∀ b, σ !! b = None →
        Q (Return b)
          {| this := T; arrays := <[b := List.filter callback xs]> σ |}) →
  wp (Array_filter callback a) {| this := T; arrays := σ |} Q.
Proof.
  intros Ha HQ. unfold Array_filter.
  apply wp_bind, (wp_read _ xs); [done|]. by apply wp_alloc.
Qed.

Lemma wp_Array_sort a xs T σ Q :
  σ !! a = Some xs →
  Q (Return a)
    {| this := T; arrays := <[a := merge_sort code_unit_le xs]> σ |} →
  wp (Array_sort a) {| this := T; arrays := σ |} Q.
Proof.
  intros Ha HQ. unfold Array_sort.
  apply wp_bind, (wp_read _ xs); [done|].
  apply wp_bind, wp_write. by apply wp_ret.
Qed.

Lemma wp_new_Set a xs T σ Q :
  σ !! a = Some xs →
  Q (Return (foldl Set_add [] xs)) {| this := T; arrays := σ |} →
  wp (new_Set a) {| this := T; arrays := σ |} Q.
Proof.
  intros Ha HQ. unfold new_Set.
  apply wp_bind, (wp_read _ xs); [done|]. by apply wp_ret.
Qed.

Lemma contributed_cons (σ : store) ch chunks :
  contributed σ (ch :: chunks) =
  default [] (σ !! Chunk.files ch) ++ contributed σ chunks.
Proof. done. Qed.

(** Reading the chunks' file lists does not depend on arrays created
    after them. *)
Lemma contributed_weaken (σ σ' : store) chunks :
  σ ⊆ σ' →
  Forall (λ ch, is_Some (σ !! Chunk.files ch)) chunks →
  contributed σ' chunks = contributed σ chunks.
Proof.
  intros Hsub. induction 1 as [|ch chunks [xs Hch] _ IH]; [done|].
  rewrite !contributed_cons, IH. f_equal.
  by rewrite Hch, (lookup_weaken _ _ _ _ Hch Hsub).
Qed.

(** The flattening [reduce] of [generateLinks]: a new array that holds the
    accumulated names followed by the files of the chunks. *)
Lemma wp_reduce_concat chunks : ∀ acc xs T (σ : store) Q,
  σ !! acc = Some xs →
  (∀ a (σ' : store) ys,
      σ ⊆ σ' → σ' !! a = Some ys →
      (Forall (λ ch, is_Some (σ !! Chunk.files ch)) chunks →
       ys = xs ++ contributed σ chunks) →
      Q (Return a) {| this := T; arrays := σ' |}) →
  wp (Array_reduce (λ accumulated chunk,
        Array_concat accumulated (Chunk.files chunk)) acc chunks)
     {| this := T; arrays := σ |} Q.
Proof.
  induction chunks as [|ch chunks IH]; intros acc xs T σ Q Hacc HQ.
  - apply wp_ret. apply (HQ acc σ xs); [done..|].
    intros _. by rewrite app_nil_r.
  - simpl. apply wp_bind. unfold Array_concat.
    apply wp_bind, (wp_read _ xs); [done|].
    apply wp_bind, wp_read_any. apply wp_alloc. intros a Ha.
    apply (IH a (xs ++ default [] (σ !! Chunk.files ch))).
    { apply lookup_insert_eq. }
    intros a' σ' ys Hsub Hlook Hys.
    assert (σ ⊆ σ') as Hσ.
    { etrans; [|done]. by apply insert_subseteq. }
    apply (HQ a' σ' ys); [done..|].
    intros [Hch Hchunks]%Forall_cons.
    rewrite Hys.
    + rewrite contributed_cons, <-app_assoc. do 2 f_equal.
      apply contributed_weaken; [by apply insert_subseteq|done].
    + eapply Forall_impl; [done|]. intros ch' [zs Hzs]. exists zs.
      eapply lookup_weaken; [done|]. by apply insert_subseteq.
Qed.

(** A [filter] whose callback neither throws nor changes the state. *)
Lemma Array_filterM_cons {A} (callback : A → M bool) x l st :
  Array_filterM callback (x :: l) st =
  match callback x st with
  | (Return keep, st') =>
      match Array_filterM callback l st' with
      | (Return rest, st'') => (Return (if keep then x :: rest else rest), st'')
      | (Throw e, st'') => (Throw e, st'')
      end
  | (Throw e, st') => (Throw e, st')
  end.
Proof.
  simpl. unfold mbind, M_bind. destruct (callback x st) as [[keep|e] st']; [|done].
  by destruct (Array_filterM callback l st') as [[rest|e] st''].
Qed.

Lemma Array_filterM_pure {A} (callback : A → M bool) (f : A → bool) l st :
  (∀ x, callback x st = (Return (f x), st)) →
  Array_filterM callback l st = (Return (List.filter f l), st).
Proof.
  intros Hcb. induction l as [|x l IH]; [done|].
  rewrite Array_filterM_cons, Hcb, IH. simpl. by destruct (f x).
Qed.

(** ** The kept files *)

Lemma elem_of_List_filter {A} (f : A → bool) (l : list A) x :
  x ∈ List.filter f l ↔ x ∈ l ∧ f x = true.
Proof. rewrite !list_elem_of_In. apply filter_In. Qed.

Lemma elem_of_kept_files o files f :
  f ∈ kept_files o files ↔
  f ∈ files ∧ whitelisted o f = true ∧ not_blacklisted o f = true.
Proof.
  unfold kept_files. rewrite merge_sort_Permutation, !elem_of_List_filter,
    elem_of_foldl_Set_add, elem_of_nil. tauto.
Qed.

Lemma NoDup_List_filter {A} (f : A → bool) (l : list A) :
  NoDup l → NoDup (List.filter f l).
Proof.
  induction 1 as [|x l Hx _ IH]; simpl; [constructor|].
  destruct (f x); [|done]. constructor; [|done].
  rewrite elem_of_List_filter. tauto.
Qed.

Lemma NoDup_kept_files o files : NoDup (kept_files o files).
Proof.
  unfold kept_files. rewrite merge_sort_Permutation.
  do 2 apply NoDup_List_filter. apply NoDup_foldl_Set_add. constructor.
Qed.

Lemma StronglySorted_kept_files o files :
  StronglySorted code_unit_le (kept_files o files).
Proof. apply StronglySorted_merge_sort; apply _. Qed.

(** With no whitelist and no blacklist both filters keep every name. *)
Lemma List_filter_true {A} (f : A → bool) (l : list A) :
  (∀ x, f x = true) → List.filter f l = l.
Proof.
  intros Hf. induction l as [|x l IH]; simpl; [done|]. by rewrite Hf, IH.
Qed.

Lemma kept_files_unfiltered o files :
  fileWhitelist o = None → fileBlacklist o = None →
  kept_files o files = merge_sort code_unit_le (foldl Set_add [] files).
Proof.
  intros Hw Hb. unfold kept_files. rewrite !List_filter_true; [done|..].
  - intros x. unfold whitelisted. by rewrite Hw.
  - intros x. unfold not_blacklisted. by rewrite Hb.
Qed.

(** ** Strict equality and property names *)

Lemma strict_eq_str_true v s : strict_eq_str v s = true ↔ v = Str s.
Proof.
  destruct v; simpl; try (split; [done|discriminate]).
  rewrite bool_decide_eq_true. split; congruence.
Qed.

Lemma strict_eq_str_false v s : strict_eq_str v s = false ↔ v ≠ Str s.
Proof.
  rewrite <-strict_eq_str_true. by destruct (strict_eq_str v s).
Qed.

(** Two property names of the source that differ. *)
Ltac names_differ :=
  let H := fresh in intros H; vm_compute in H; discriminate H.

(** ** The hooks *)

Lemma skip_true o d :
  skip o d = true ↔
  (∃ l, includeHtmlNames o = Some l
        ∧ HtmlPluginData.plugin_options_filename d ∉ l)
  ∨ (∃ l, excludeHtmlNames o = Some l
          ∧ HtmlPluginData.plugin_options_filename d ∈ l).
Proof.
  unfold skip, includes. rewrite orb_true_iff.
  destruct (includeHtmlNames o) as [inc|], (excludeHtmlNames o) as [exc|];
    rewrite ?negb_true_iff, ?bool_decide_eq_false, ?bool_decide_eq_true;
    naive_solver.
Qed.

(** [skip] reads the file name of the document only. *)
Lemma skip_set_assets_chunks o d chunks :
  skip o (set_assets_chunks d chunks) = skip o d.
Proof. done. Qed.

(** C6. For a document that is not skipped, with a pending list of
    hints, the after hook returns the descriptor with its head-tag list
    set to the pending hints followed by the tags that were there: every
    hint before every earlier tag, both in their own order. Nothing else
    changes: not the plugin, not the other tag list. *)
Theorem afterHook_prepends_hints st d hints :
  skip (options (this st)) d = false →
  resourceHints (this st) = Some hints →
  ∃ d', afterHook d st = (Return (d', true), st)
    ∧ head_tag_list d' = hints ++ head_tag_list d
    ∧ (∀ i tag, hints !! i = Some tag → head_tag_list d' !! i = Some tag)
    ∧ (∀ j tag, head_tag_list d !! j = Some tag →
                head_tag_list d' !! (length hints + j)%nat = Some tag)
    ∧ (if version_ge_4 d
       then HtmlPluginData.head d' = HtmlPluginData.head d
       else HtmlPluginData.headTags d' = HtmlPluginData.headTags d).
Proof.
  intros Hskip Hhints.
  unfold afterHook, mbind, M_bind, this_options, this_resourceHints.
  rewrite Hskip, Hhints. eexists. split; [done|].
  assert (∀ d', head_tag_list d' = hints ++ head_tag_list d →
    (∀ i tag, hints !! i = Some tag → head_tag_list d' !! i = Some tag)
    ∧ (∀ j tag, head_tag_list d !! j = Some tag →
                head_tag_list d' !! (length hints + j)%nat = Some tag)) as Hpos.
  { intros d' ->. split.
    - intros i tag Hi. by apply lookup_app_l_Some.
    - intros j tag Hj. by rewrite lookup_app_r, Nat.add_comm, Nat.add_sub by lia. }
  unfold head_tag_list in *. destruct (version_ge_4 d) eqn:Hv.
  - assert (version_ge_4 (set_headTags d (hints ++ HtmlPluginData.headTags d))
            = true) as Hv' by done.
    specialize (Hpos (set_headTags d (hints ++ HtmlPluginData.headTags d))).
    rewrite Hv' in *. split; [done|]. destruct Hpos; done.
  - assert (version_ge_4 (set_head d (hints ++ HtmlPluginData.head d))
            = false) as Hv' by done.
    specialize (Hpos (set_head d (hints ++ HtmlPluginData.head d))).
    rewrite Hv' in *. split; [done|]. destruct Hpos; done.
Qed.

(** ** appendHash *)

Lemma startsWith_nil s : startsWith s [] = true.
Proof. by destruct s. Qed.

Lemma indexOf_from_single c s : ∀ i,
  (0 ≤ i)%Z → indexOf_from i s [c] = (-1)%Z ↔ c ∉ s.
Proof.
  induction s as [|b s IH]; intros i Hi; simpl.
  - split; [intros _; apply not_elem_of_nil|done].
  - rewrite startsWith_nil, andb_true_r, not_elem_of_cons.
    destruct (N.eqb_spec c b) as [->|Hne].
    + split; [lia|]. by intros [? _].
    + rewrite IH by lia. naive_solver.
Qed.

Lemma occurrences_app c s t :
  occurrences c (s ++ t) = (occurrences c s + occurrences c t)%nat.
Proof. unfold occurrences. by rewrite List.filter_app, length_app. Qed.

(** C10. [appendHash] returns an empty url as it is; it appends the hash
    after a question mark to a url that has none, and after an ampersand
    to a url that has one, which then holds no more question marks than
    the url and the hash held. *)
Theorem appendHash_separator url hash :
  appendHash [] hash = []
  ∧ (url ≠ [] → 63%N ∉ url →
     appendHash url hash = url ++ utf16 "?" ++ hash)
  ∧ (63%N ∈ url →
     appendHash url hash = url ++ utf16 "&" ++ hash
     ∧ occurrences 63 (appendHash url hash)
       = (occurrences 63 url + occurrences 63 hash)%nat).
Proof.
  split; [done|].
  assert (indexOf url (utf16 "?") = (-1)%Z ↔ 63%N ∉ url) as Hq.
  { apply indexOf_from_single. lia. }
  split.
  - intros Hne Hno. destruct url as [|u url]; [done|]. unfold appendHash.
    apply Hq in Hno. rewrite Hno. done.
  - intros Hin. destruct url as [|u url]; [by apply elem_of_nil in Hin|].
    unfold appendHash.
    destruct (Z.eqb_spec (indexOf (u :: url) (utf16 "?")) (-1)) as [He|_].
    + by apply Hq in He.
    + split; [done|]. by rewrite !occurrences_app.
Qed.

(** ** What a computation does not read *)

Create HintDb oblivious.

Lemma oblivious_ret {A} (a : A) : oblivious (mret a).
Proof. intros st. exists false. intros h. reflexivity. Qed.

Lemma oblivious_throw {A} e : oblivious (throw (A:=A) e).
Proof. intros st. exists false. intros h. reflexivity. Qed.

Lemma oblivious_bind {A B} (m : M A) (k : A → M B) :
  oblivious m → (∀ a, oblivious (k a)) → oblivious (m ≫= k).
Proof.
  intros Hm Hk st. destruct (Hm st) as [b1 H1].
  unfold mbind, M_bind.
  destruct (m st) as [[a|e] st1] eqn:Hst; simpl in H1.
  - destruct (Hk a st1) as [b2 H2]. destruct b1.
    + exists true. intros h. rewrite H1. by destruct (k a st1).
    + exists b2. intros h. by rewrite H1, H2.
  - exists b1. intros h. by rewrite H1.
Qed.

Lemma oblivious_this_options : oblivious this_options.
Proof. intros st. exists false. intros h. reflexivity. Qed.

Lemma oblivious_set_resourceHints links : oblivious (set_resourceHints links).
Proof. intros st. exists true. intros h. reflexivity. Qed.

Lemma oblivious_get_arrays : oblivious get_arrays.
Proof. intros st. exists false. intros h. reflexivity. Qed.

Lemma oblivious_call {A} (f : store → A * store) : oblivious (call f).
Proof. intros st. exists false. intros h. reflexivity. Qed.

Lemma oblivious_alloc xs : oblivious (alloc xs).
Proof. intros st. exists false. intros h. reflexivity. Qed.

Lemma oblivious_read a : oblivious (read a).
Proof. intros st. exists false. intros h. reflexivity. Qed.

Lemma oblivious_write a xs : oblivious (write a xs).
Proof. intros st. exists false. intros h. reflexivity. Qed.

#[local] Hint Resolve oblivious_ret oblivious_throw oblivious_this_options
  oblivious_set_resourceHints oblivious_get_arrays oblivious_call
  oblivious_alloc oblivious_read oblivious_write : oblivious.

(** One step of a sequence of computations that do not read the hints. *)
Ltac oblivious_step :=
  first [ solve [auto with oblivious]
        | apply oblivious_bind; [solve [auto with oblivious]|intros ?] ].

Lemma oblivious_Array_concat a b : oblivious (Array_concat a b).
Proof. unfold Array_concat. repeat oblivious_step. Qed.

Lemma oblivious_Array_filter callback a : oblivious (Array_filter callback a).
Proof. unfold Array_filter. repeat oblivious_step. Qed.

Lemma oblivious_Array_sort a : oblivious (Array_sort a).
Proof. unfold Array_sort. repeat oblivious_step. Qed.

Lemma oblivious_new_Set a : oblivious (new_Set a).
Proof. unfold new_Set. repeat oblivious_step. Qed.

Lemma oblivious_Object_valuesM {A} (o : option (object A)) :
  oblivious (Object_valuesM o).
Proof. destruct o; simpl; auto with oblivious. Qed.

Lemma oblivious_Array_reduce {A B} (callback : B → A → M B) l :
  (∀ acc x, oblivious (callback acc x)) →
  ∀ init, oblivious (Array_reduce callback init l).
Proof.
  intros Hcb. induction l as [|x l IH]; intros init; simpl.
  - apply oblivious_ret.
  - apply oblivious_bind; auto.
Qed.

Lemma oblivious_Array_filterM {A} (callback : A → M bool) l :
  (∀ x, oblivious (callback x)) → oblivious (Array_filterM callback l).
Proof.
  intros Hcb. induction l as [|x l IH]; simpl.
  - apply oblivious_ret.
  - apply oblivious_bind; [done|]. intros keep.
    apply oblivious_bind; [done|]. intros rest. apply oblivious_ret.
Qed.

#[local] Hint Resolve oblivious_Array_concat oblivious_Array_filter
  oblivious_Array_sort oblivious_new_Set oblivious_Object_valuesM : oblivious.

(** ** generateLinks and the before hook, over any helpers *)

Section Helpers.

Variable extractChunks :
  Compilation.t → include_option → store → list Chunk.t * store.
Variable doesChunkBelongToHTML :
  store → Chunk.t → Compilation.t → list ChunkInfo.t → bool.
Variable determineAsValue : jsstring → jsstring → as_option → value.

(** *** The tags *)

(** The three shapes of [attributes], by the two tests of the loop body. *)
Lemma link_attributes_cases o publicPath file :
  let href := publicPath ++ file in
  let base : gmap jsstring value :=
    <[utf16 "href" := Str href]> (<[utf16 "rel" := rel o]> ∅) in
  let resolved := determineAsValue href file (as_ o) in
  (rel o ≠ Str (utf16 "preload") ∧
   link_attributes determineAsValue o publicPath file = base)
  ∨ (rel o = Str (utf16 "preload") ∧ resolved = Str (utf16 "font") ∧
     link_attributes determineAsValue o publicPath file =
       <[utf16 "crossorigin" := Str []]> (<[utf16 "as" := resolved]> base))
  ∨ (rel o = Str (utf16 "preload") ∧ resolved ≠ Str (utf16 "font") ∧
     link_attributes determineAsValue o publicPath file =
       <[utf16 "as" := resolved]> base).
Proof.
  intros href base resolved. unfold link_attributes.
  destruct (strict_eq_str (rel o) _) eqn:Hrel.
  - apply strict_eq_str_true in Hrel. right.
    unfold get_prop. rewrite lookup_insert_eq. simpl.
    fold href. fold resolved.
    destruct (strict_eq_str resolved _) eqn:Has.
    + apply strict_eq_str_true in Has. by left.
    + apply strict_eq_str_false in Has. by right.
  - apply strict_eq_str_false in Hrel. by left.
Qed.

Lemma attributes_of_link_tag o publicPath file :
  attributes_of (link_tag determineAsValue o publicPath file) =
  Some (link_attributes determineAsValue o publicPath file).
Proof.
  unfold attributes_of, link_tag.
  rewrite lookup_insert_ne by names_differ. by rewrite lookup_insert_eq.
Qed.

Lemma link_attributes_href o publicPath file :
  link_attributes determineAsValue o publicPath file !! utf16 "href" =
  Some (Str (publicPath ++ file)).
Proof.
  destruct (link_attributes_cases o publicPath file)
    as [[_ ->]|[(_ & _ & ->)|(_ & _ & ->)]];
    repeat (rewrite lookup_insert_ne by names_differ);
    by rewrite lookup_insert_eq.
Qed.

Lemma href_of_link_tag o publicPath file :
  href_of (link_tag determineAsValue o publicPath file) =
  Some (publicPath ++ file).
Proof.
  unfold href_of. rewrite attributes_of_link_tag. simpl.
  by rewrite link_attributes_href.
Qed.

(** *** What generateLinks computes *)

Lemma filterM_chunks_Some obj c extracted T σ :
  Array_filterM (λ chunk,
      htmlAssetsChunks ← Object_valuesM (Some obj);
      σ ← get_arrays;
      mret (doesChunkBelongToHTML σ chunk c htmlAssetsChunks)) extracted
    {| this := T; arrays := σ |}
  = (Return (List.filter (λ chunk,
       doesChunkBelongToHTML σ chunk c (Object_values obj)) extracted),
     {| this := T; arrays := σ |}).
Proof.
  apply Array_filterM_pure. done.
Qed.

Lemma wp_htmlChunks T σ o c d extracted :
  wp (if include_is (include o) (utf16 "allAssets") then mret extracted
      else Array_filterM (λ chunk,
             htmlAssetsChunks ←
               Object_valuesM (HtmlPluginData.assets_chunks d);
             σ ← get_arrays;
             mret (doesChunkBelongToHTML σ chunk c htmlAssetsChunks))
             extracted)
     {| this := T; arrays := σ |}
     (λ r st',
        st' = {| this := T; arrays := σ |} ∧
        match r with
        | Return htmlChunks =>
            htmlChunks = htmlChunks_of doesChunkBelongToHTML σ o c d extracted
        | Throw _ =>
            include_is (include o) (utf16 "allAssets") = false ∧
            HtmlPluginData.assets_chunks d = None
        end).
Proof.
  unfold htmlChunks_of.
  destruct (include_is _ _) eqn:Hall; [done|].
  destruct (HtmlPluginData.assets_chunks d) as [obj|].
  - unfold wp. by rewrite filterM_chunks_Some.
  - by destruct extracted.
Qed.

Lemma Forall_List_filter {A} (P : A → Prop) f (l : list A) :
  Forall P l → Forall P (List.filter f l).
Proof.
  induction 1 as [|x l Hx _ IH]; simpl; [done|].
  destruct (f x); [by constructor|done].
Qed.

Lemma generateLinks_wp T σ c d :
  wp (generateLinks extractChunks doesChunkBelongToHTML determineAsValue c d)
     {| this := T; arrays := σ |}
     (generateLinks_post extractChunks doesChunkBelongToHTML
        determineAsValue T σ c d).
Proof.
  unfold generateLinks, generateLinks_post.
  apply wp_bind, wp_this_options. simpl.
  apply wp_bind, wp_call.
  set (o := options T). set (r := extractChunks c (include o) σ).
  apply wp_bind. eapply wp_wand; [apply wp_htmlChunks|].
  intros [htmlChunks|e] st' [-> Hres].
  2:{ simpl. split_and!; try done; try apply Hres.
      intros a xs Hsub Ha. by eapply lookup_weaken. }
  apply wp_bind, wp_alloc. intros a0 Ha0.
  apply wp_bind, (wp_reduce_concat _ _ []); [apply lookup_insert_eq|].
  intros a1 σ1 ys Hσ1 Ha1 Hys.
  apply wp_bind, (wp_new_Set _ ys); [done|].
  apply wp_bind, wp_alloc. intros a2 Ha2.
  apply wp_bind, (wp_Array_filter _ _ (foldl Set_add [] ys));
    [apply lookup_insert_eq|].
  intros a3 Ha3.
  apply wp_bind, (wp_Array_filter _ _
    (List.filter (whitelisted o) (foldl Set_add [] ys)));
    [apply lookup_insert_eq|].
  intros a4 Ha4.
  apply wp_bind, (wp_Array_sort _
    (List.filter (not_blacklisted o)
       (List.filter (whitelisted o) (foldl Set_add [] ys))));
    [apply lookup_insert_eq|].
  rewrite insert_insert_eq.
  apply wp_bind, (wp_read _ (kept_files o ys)); [apply lookup_insert_eq|].
  apply wp_bind, wp_set_resourceHints. apply wp_ret. simpl.
  split_and!; [|done|done|].
  - intros a xs Hsub Ha.
    assert (r.2 ⊆ <[a4 := kept_files o ys]>
                    (<[a3 := List.filter (whitelisted o) (foldl Set_add [] ys)]>
                       (<[a2 := foldl Set_add [] ys]> σ1))) as Hframe.
    { etrans; [by apply insert_subseteq|]. etrans; [apply Hσ1|].
      etrans; [by apply insert_subseteq|].
      etrans; [by apply insert_subseteq|]. by apply insert_subseteq. }
    eapply lookup_weaken; [|apply Hframe]. by eapply lookup_weaken.
  - exists ys. split; [|by rewrite foldl_push].
    intros Hall. rewrite Hys.
    + simpl. rewrite Hres. apply contributed_weaken; [by apply insert_subseteq|].
      rewrite <-Hres. unfold htmlChunks_of in Hres. subst htmlChunks.
      destruct (include_is _ _); [done|].
      destruct (HtmlPluginData.assets_chunks d); [|constructor].
      by apply Forall_List_filter.
    + assert (Forall (λ ch, is_Some (r.2 !! Chunk.files ch)) htmlChunks) as Hsel.
      { rewrite Hres. unfold htmlChunks_of.
        destruct (include_is _ _); [done|].
        destruct (HtmlPluginData.assets_chunks d); [|constructor].
        by apply Forall_List_filter. }
      eapply Forall_impl; [apply Hsel|]. intros ch [zs Hzs]. exists zs.
      eapply lookup_weaken; [done|]. by apply insert_subseteq.
Qed.

(** *** The claims about generateLinks *)

(** [generateLinks] returns the descriptor it was given whenever it can
    read the chunks of the document. *)
Lemma generateLinks_returns st c d :
  chunks_readable (options (this st)) d →
  ∃ st', generateLinks extractChunks doesChunkBelongToHTML determineAsValue
           c d st = (Return d, st').
Proof.
  intros Hread. destruct st as [T σ].
  pose proof (generateLinks_wp T σ c d) as H.
  unfold wp in H. destruct (generateLinks _ _ _ c d _) as [[x|e] st'].
  - destruct H as (_ & _ & -> & _). by exists st'.
  - destruct H as (_ & _ & _ & Hall & Hnone). simpl in Hread.
    destruct Hread as [Hread|[obj Hread]]; congruence.
Qed.

(** What [generateLinks] leaves in [this.resourceHints] when it returns:
    one tag per kept file. *)
Lemma generateLinks_links st c d x st' :
  generateLinks extractChunks doesChunkBelongToHTML determineAsValue
    c d st = (Return x, st') →
  let o := options (this st) in
  let r := extractChunks c (include o) (arrays st) in
  x = d ∧ options (this st') = o ∧
  ∃ files,
    (Forall (λ ch, is_Some (r.2 !! Chunk.files ch)) r.1 →
     files = contributed r.2 (htmlChunks_of doesChunkBelongToHTML r.2 o c d r.1))
    ∧ resourceHints (this st') =
        Some (link_tag determineAsValue o
                (or_empty (Compilation.outputOptions_publicPath c))
              <$> kept_files o files).
Proof.
  intros Hrun. destruct st as [T σ].
  pose proof (generateLinks_wp T σ c d) as H.
  unfold wp in H. rewrite Hrun in H. simpl in *.
  destruct H as (_ & Ho & -> & files & Hfiles & Hhints). eauto.
Qed.

(** C2. With [rel] set to "prefetch", every link descriptor that
    [generateLinks] produces has attributes with [href] and [rel] and
    nothing else: no [as], no [crossorigin], whatever the file. (And
    [generateLinks] does return when it can read the document's chunks.) *)
Theorem prefetch_only_href_and_rel st c d :
  rel (options (this st)) = Str (utf16 "prefetch") →
  (chunks_readable (options (this st)) d →
   ∃ st', generateLinks extractChunks doesChunkBelongToHTML determineAsValue
            c d st = (Return d, st'))
  ∧ ∀ x st',
      generateLinks extractChunks doesChunkBelongToHTML determineAsValue
        c d st = (Return x, st') →
    ∃ links, resourceHints (this st') = Some links ∧
      Forall (λ tag, ∃ a,
        attributes_of tag = Some a
        ∧ dom a = {[utf16 "href"; utf16 "rel"]}
        ∧ a !! utf16 "rel" = Some (Str (utf16 "prefetch"))
        ∧ a !! utf16 "as" = None
        ∧ a !! utf16 "crossorigin" = None) links.
Proof.
  intros Hrel. split; [apply generateLinks_returns|].
  intros x st' Hrun.
  destruct (generateLinks_links _ _ _ _ _ Hrun) as (_ & _ & files & _ & ->).
  eexists. split; [done|]. apply Forall_fmap, Forall_forall. intros f _.
  exists (link_attributes determineAsValue (options (this st))
            (or_empty (Compilation.outputOptions_publicPath c)) f).
  simpl. split; [apply attributes_of_link_tag|].
  destruct (link_attributes_cases (options (this st))
              (or_empty (Compilation.outputOptions_publicPath c)) f)
    as [[_ ->]|[(Hpre & _)|(Hpre & _)]];
    [|rewrite Hrel in Hpre; vm_compute in Hpre; discriminate Hpre..].
  split_and!.
  - rewrite !dom_insert_L, dom_empty_L. set_solver.
  - rewrite lookup_insert_ne by names_differ.
    by rewrite lookup_insert_eq, Hrel.
  - rewrite !lookup_insert_ne by names_differ. done.
  - rewrite !lookup_insert_ne by names_differ. done.
Qed.



(** C7, as the code has it. Every link descriptor that [generateLinks]
    produces is [{ tagName: "link", attributes, voidTag: true }], with
    [href] and [rel] among the attributes and nothing but [href], [rel],
    [as] and [crossorigin]: the void-element marker is the property
    [voidTag]. (And [generateLinks] does return when it can read the
    document's chunks.) *)
Theorem descriptors_are_void_link_tags st c d :
  (chunks_readable (options (this st)) d →
   ∃ st', generateLinks extractChunks doesChunkBelongToHTML determineAsValue
            c d st = (Return d, st'))
  ∧ ∀ x st',
      generateLinks extractChunks doesChunkBelongToHTML determineAsValue
        c d st = (Return x, st') →
    ∃ links, resourceHints (this st') = Some links ∧
      Forall (descriptor_shape (utf16 "voidTag")) links.
Proof.
  split; [apply generateLinks_returns|].
  intros x st' Hrun.
  destruct (generateLinks_links _ _ _ _ _ Hrun) as (_ & _ & files & _ & ->).
  eexists. split; [done|]. apply Forall_fmap, Forall_forall. intros f _.
  exists (link_attributes determineAsValue (options (this st))
            (or_empty (Compilation.outputOptions_publicPath c)) f).
  split; [done|].
  destruct (link_attributes_cases (options (this st))
              (or_empty (Compilation.outputOptions_publicPath c)) f)
    as [[_ ->]|[(_ & _ & ->)|(_ & _ & ->)]];
    rewrite !dom_insert_L, dom_empty_L; set_solver.
Qed.

Lemma StronglySorted_impl_elem {A} (R R' : relation A) (l : list A) :
  (∀ x y, x ∈ l → y ∈ l → R x y → R' x y) →
  StronglySorted R l → StronglySorted R' l.
Proof.
  intros HR. induction 1 as [|x l _ IH Hx]; constructor.
  - apply IH. intros y z Hy Hz. apply HR; by right.
  - apply Forall_forall. intros y Hy. apply HR; [by left|by right|].
    rewrite Forall_forall in Hx. by apply Hx.
Qed.


(** *** The before hook *)


(** C5. A document whose file name is missing from a configured
    [includeHtmlNames], or listed in a configured [excludeHtmlNames], is
    skipped: the before hook leaves the plugin and the arrays as they
    were (no hints are generated) and the tag lists as they were, and the
    after hook returns undefined and leaves the descriptor as it was. *)
Theorem excluded_document_is_skipped st c d :
  (∃ l, includeHtmlNames (options (this st)) = Some l
        ∧ HtmlPluginData.plugin_options_filename d ∉ l)
  ∨ (∃ l, excludeHtmlNames (options (this st)) = Some l
          ∧ HtmlPluginData.plugin_options_filename d ∈ l) →
  (∃ d', beforeHook extractChunks doesChunkBelongToHTML determineAsValue
           c d st = (Return d', st)
         ∧ HtmlPluginData.headTags d' = HtmlPluginData.headTags d
         ∧ HtmlPluginData.head d' = HtmlPluginData.head d)
  ∧ afterHook d st = (Return (d, false), st).
Proof.
  intros Hskip%skip_true. split.
  - unfold beforeHook. destruct (version_ge_4 d).
    + eexists. unfold mbind, M_bind, this_options.
      rewrite skip_set_assets_chunks, Hskip. by split.
    + exists d. unfold mbind, M_bind, this_options. by rewrite Hskip.
  - unfold afterHook, mbind, M_bind, this_options. by rewrite Hskip.
Qed.

(** From version 4 of the HTML plugin on, the before hook has written
    [assets.chunks] before [generateLinks] reads it: the hook returns. *)
Lemma beforeHook_returns_from_version_4 st c d :
  version_ge_4 d = true →
  ∃ d' st', beforeHook extractChunks doesChunkBelongToHTML determineAsValue
              c d st = (Return d', st').
Proof.
  intros Hv. unfold beforeHook. rewrite Hv.
  unfold mbind at 1, M_bind, this_options.
  destruct (skip _ _); [by eexists _, _|].
  edestruct generateLinks_returns as [st' Hrun]; [|by eexists _, _].
  right. by eexists.
Qed.

(** *** What generateLinks reads and writes *)


Lemma oblivious_generateLinks c d :
  oblivious
    (generateLinks extractChunks doesChunkBelongToHTML determineAsValue c d).
Proof.
  unfold generateLinks.
  oblivious_step. oblivious_step.
  apply oblivious_bind.
  { destruct (include_is _ _); [apply oblivious_ret|].
    apply oblivious_Array_filterM. intros chunk. repeat oblivious_step. }
  intros htmlChunks. oblivious_step.
  apply oblivious_bind.
  { apply oblivious_Array_reduce. auto with oblivious. }
  intros allFiles. repeat oblivious_step.
Qed.



End Helpers.

(** ** The code on small inputs *)

Example sort_by_code_units :
  merge_sort code_unit_le (utf16 <$> ["b"; "ab"; "B"; "a"; "10"; "9"])
  = utf16 <$> ["10"; "9"; "B"; "a"; "ab"; "b"].
Proof. by vm_compute. Qed.

Example Set_keeps_first_occurrences :
  foldl Set_add [] (utf16 <$> ["b"; "a"; "b"; "c"; "a"])
  = utf16 <$> ["b"; "a"; "c"].
Proof. by vm_compute. Qed.

Example code_points_of_a_pair :
  code_points [55357; 56832; 46]%N = [128512; 46]%N
  ∧ code_points [56832; 55357; 46]%N = [56832; 55357; 46]%N.
Proof. by vm_compute. Qed.

Example appendHash_on_three_urls :
  appendHash (utf16 "a.js") (utf16 "abc") = utf16 "a.js?abc"
  ∧ appendHash (utf16 "a.js?v=1") (utf16 "abc") = utf16 "a.js?v=1&abc"
  ∧ appendHash [] (utf16 "abc") = [].
Proof. by vm_compute. Qed.

Example test_dot_js :
  test_dot (utf16 "js") <$> (utf16 <$> ["a.js"; "a.js?abc"; "ajs"; ".js"; "js";
                                       "a.jsx"; "a.js.map"])
  = [true; true; true; true; false; false; false].
Proof. by vm_compute. Qed.

Example own_properties_order :
  (own_properties [(utf16 "b", 1); (utf16 "10", 2); (utf16 "9", 3);
                   (utf16 "01", 4); (utf16 "a", 5)]%Z).*1
  = utf16 <$> ["9"; "10"; "b"; "01"; "a"].
Proof. by vm_compute. Qed.

(** Section 8 of the specification: the chunks [main] and [vendor] under
    the public path [/static/], with all assets included. *)
Example links_of_main_and_vendor :
  let compilation :=
    {| Compilation.chunks := [];
       Compilation.assets :=
         utf16 <$> ["main.a1b2.js"; "vendor.c3d4.js"; "vendor.c3d4.css"];
       Compilation.outputOptions_publicPath := Some (utf16 "/static/");
       Compilation.hash := utf16 "abc";
       Compilation.stats_chunks := [] |} in
  let res := run_generateLinks [] compilation example_document
               example_wide_state in
  let links := default [] (resourceHints (this res.2)) in
  href_of <$> links
  = Some <$> (utf16 <$> ["/static/main.a1b2.js"; "/static/vendor.c3d4.css";
                         "/static/vendor.c3d4.js"])
  ∧ (λ tag, a ← attributes_of tag; a !! utf16 "as") <$> links
    = Some <$> (Str <$> (utf16 <$> ["script"; "style"; "script"])).
Proof. by vm_compute. Qed.

(** The tag of [font.woff2] on the example. *)
Example tag_of_a_font :
  attributes_of
    (link_tag (determineAsValue_model []) (example_options "preload")
       (utf16 "/static/") (utf16 "font.woff2"))
  = Some (<[utf16 "href" := Str (utf16 "/static/font.woff2")]>
          (<[utf16 "rel" := Str (utf16 "preload")]>
          (<[utf16 "as" := Str (utf16 "font")]>
          (<[utf16 "crossorigin" := Str []]> ∅)))).
Proof. by vm_compute. Qed.

(** ** The claims on the examples *)

Lemma example_chunks_allocated rel :
  let r := extractChunks_model example_compilation
             (include (options (this (example_state rel))))
             (arrays (example_state rel)) in
  Forall (λ ch, is_Some (r.2 !! Chunk.files ch)) r.1.
Proof. repeat constructor; eexists; vm_compute; reflexivity. Qed.

Lemma example_chunks_readable st :
  chunks_readable (options (this st)) example_document.
Proof. right. eexists. reflexivity. Qed.



(** C2 on the example, with [rel] set to "prefetch". *)
Lemma prefetch_only_href_and_rel_witness :
  ∃ st' links,
    run_generateLinks [] example_compilation example_document
      (example_state "prefetch") = (Return example_document, st')
    ∧ resourceHints (this st') = Some links
    ∧ Forall (λ tag, ∃ a,
        attributes_of tag = Some a
        ∧ dom a = {[utf16 "href"; utf16 "rel"]}
        ∧ a !! utf16 "rel" = Some (Str (utf16 "prefetch"))
        ∧ a !! utf16 "as" = None
        ∧ a !! utf16 "crossorigin" = None) links.
Proof.
  destruct (prefetch_only_href_and_rel extractChunks_model
              doesChunkBelongToHTML_model (determineAsValue_model [])
              (example_state "prefetch") example_compilation example_document
              eq_refl) as [Hret Hall].
  destruct (Hret (example_chunks_readable _)) as [st' Hrun].
  destruct (Hall _ _ Hrun) as (links & Hhints & Hshape).
  by exists st', links.
Defined.



(** C5 on the example, with [index.html] in [excludeHtmlNames]. *)
Lemma excluded_document_is_skipped_witness :
  (∃ d', beforeHook extractChunks_model doesChunkBelongToHTML_model
           (determineAsValue_model []) example_compilation example_document
           example_exclude_state = (Return d', example_exclude_state)
         ∧ HtmlPluginData.headTags d' = HtmlPluginData.headTags example_document
         ∧ HtmlPluginData.head d' = HtmlPluginData.head example_document)
  ∧ afterHook example_document example_exclude_state
    = (Return (example_document, false), example_exclude_state).
Proof.
  apply (excluded_document_is_skipped extractChunks_model
           doesChunkBelongToHTML_model (determineAsValue_model [])
           example_exclude_state example_compilation example_document).
  right. eexists. split; [reflexivity|]. by left.
Defined.

(** C6 on the example, with one hint pending and one tag in the head. *)
Lemma afterHook_prepends_hints_witness :
  ∃ d', afterHook example_document example_pending_state
        = (Return (d', true), example_pending_state)
    ∧ head_tag_list d'
      = [link_tag (determineAsValue_model []) (example_options "preload")
           (utf16 "/static/") (utf16 "main.js");
         Obj (<[utf16 "tagName" := Str (utf16 "meta")]> ∅)].
Proof.
  destruct (afterHook_prepends_hints example_pending_state example_document
              _ eq_refl eq_refl) as (d' & Hrun & Hhead & _).
  by exists d'.
Defined.

Lemma Obj_inj (m m' : gmap jsstring value) : Obj m = Obj m' → m = m'.
Proof. by intros [=]. Qed.

(** The descriptors of the code do not have the property
    [isVoidElement]. *)
Lemma link_tag_no_isVoidElement determineAsValue o publicPath file :
  ¬ descriptor_shape (utf16 "isVoidElement")
      (link_tag determineAsValue o publicPath file).
Proof.
  intros (a & Heq & _). unfold link_tag in Heq. apply Obj_inj in Heq.
  apply (f_equal (λ m : gmap jsstring value, m !! utf16 "isVoidElement")) in Heq.
  rewrite !lookup_insert_ne in Heq by names_differ.
  by rewrite lookup_insert_eq in Heq.
Qed.

(** C7 fails as stated: on the example every descriptor has the marker
    under the name [voidTag], and none has a property [isVoidElement]. *)
Lemma void_marker_is_not_isVoidElement :
  let res := run_generateLinks [] example_compilation example_document
               (example_state "preload") in
  ∃ links,
    res.1 = Return example_document
    ∧ resourceHints (this res.2) = Some links
    ∧ length links = 4%nat
    ∧ Forall (λ tag, ∃ o, tag = Obj o
                ∧ o !! utf16 "isVoidElement" = None
                ∧ o !! utf16 "voidTag" = Some (Bool true)) links
    ∧ ¬ Forall (descriptor_shape (utf16 "isVoidElement")) links.
Proof.
  intros res.
  exists (link_tag (determineAsValue_model []) (example_options "preload")
            (utf16 "/static/")
          <$> (utf16 <$> ["font.woff2"; "main.js"; "shared.js"; "vendor.css"])).
  split_and!; [by vm_compute..|done| |].
  - repeat constructor; eexists; (split; [reflexivity|]); by vm_compute.
  - intros H. apply Forall_inv in H. by apply link_tag_no_isVoidElement in H.
Qed.



(** * More of the code *)

(** ** Tables of chunk information *)

Lemma obj_get_cons {A} k0 (v0 : A) (o : object A) k :
  obj_get ((k0, v0) :: o) k =
  if bool_decide (k0 = k) then Some v0 else obj_get o k.
Proof. unfold obj_get. simpl. by case_bool_decide. Qed.

Lemma obj_get_obj_set {A} k (v : A) (o : object A) k' :
  obj_get (obj_set k v o) k' =
  if bool_decide (k = k') then Some v else obj_get o k'.
Proof.
  unfold obj_get. induction o as [|[k0 v0] o IH]; simpl.
  - by repeat case_bool_decide.
  - repeat (case_bool_decide; simpl in *; simplify_eq); try done.
Qed.

Lemma obj_get_Some_elem_of {A} (o : object A) k v :
  obj_get o k = Some v → (k, v) ∈ o.
Proof.
  unfold obj_get. induction o as [|[k0 v0] o IH]; simpl; [done|].
  case_bool_decide; simpl in *.
  - intros [= <-]. subst. by left.
  - intros. right. by apply IH.
Qed.

Lemma obj_get_None {A} (o : object A) k :
  obj_get o k = None ↔ k ∉ o.*1.
Proof.
  unfold obj_get. induction o as [|[k0 v0] o IH]; simpl.
  - split; [intros _; apply not_elem_of_nil|done].
  - rewrite not_elem_of_cons. case_bool_decide; simpl in *.
    + split; [done|]. by intros [? _].
    + rewrite IH. naive_solver.
Qed.

(** In a table without a repeated name a property is found by its name. *)
Lemma obj_get_elem_of {A} (o : object A) k v :
  NoDup o.*1 → (k, v) ∈ o → obj_get o k = Some v.
Proof.
  unfold obj_get. induction o as [|[k0 v0] o IH]; simpl.
  - by intros _ ?%elem_of_nil.
  - intros [Hk0 Ho]%NoDup_cons [[= -> ->]|Hin]%elem_of_cons.
    + by rewrite bool_decide_eq_true_2.
    + rewrite bool_decide_eq_false_2; [by apply IH|].
      intros ->. apply Hk0. apply list_elem_of_fmap. by exists (k, v).
Qed.

Lemma obj_set_keys {A} k (v : A) (o : object A) :
  (obj_set k v o).*1 = if bool_decide (k ∈ o.*1) then o.*1 else o.*1 ++ [k].
Proof.
  induction o as [|[k0 v0] o IH]; [done|].
  rewrite fmap_cons. simpl obj_set. simpl fst.
  destruct (decide (k0 = k)) as [->|Hne].
  - rewrite !bool_decide_eq_true_2; [done|apply list_elem_of_here|done].
  - rewrite (bool_decide_eq_false_2 (k0 = k)) by done.
    rewrite fmap_cons, IH. simpl fst.
    destruct (decide (k ∈ o.*1)) as [Hin|Hin].
    + rewrite !bool_decide_eq_true_2; [done|by apply list_elem_of_further|done].
    + rewrite !bool_decide_eq_false_2; [done| |done].
      intros [?|?]%elem_of_cons; congruence.
Qed.

(** Assigning a property keeps the names distinct. *)
Lemma NoDup_obj_set {A} k (v : A) (o : object A) :
  NoDup o.*1 → NoDup (obj_set k v o).*1.
Proof.
  intros Ho. rewrite obj_set_keys. case_bool_decide as Hin; [done|].
  apply NoDup_app. split_and!; [done| |apply NoDup_singleton].
  intros x Hx ->%list_elem_of_singleton. done.
Qed.

(** The own properties are the properties, in another order. *)
Lemma own_properties_Permutation {A} (o : object A) : own_properties o ≡ₚ o.
Proof.
  unfold own_properties. rewrite merge_sort_Permutation.
  induction o as [|p o IH]; [done|].
  simpl. destruct (array_index p.1) as [i|] eqn:Hi; simpl.
  - by rewrite IH.
  - by rewrite <-Permutation_middle, IH.
Qed.

(** [Object.assign]: the properties of the source, and of the target those
    the source does not have. *)
Lemma obj_get_Object_assign {A} (target source : object A) k :
  NoDup source.*1 →
  obj_get (Object_assign target source) k =
  match obj_get source k with
  | Some v => Some v
  | None => obj_get target k
  end.
Proof.
  intros Hnd. unfold Object_assign.
  assert (NoDup (own_properties source).*1) as Hnd'.
  { by rewrite own_properties_Permutation. }
  assert (∀ v, (k, v) ∈ own_properties source ↔ (k, v) ∈ source) as Hmem.
  { intros v. by rewrite own_properties_Permutation. }
  assert (k ∈ (own_properties source).*1 ↔ k ∈ source.*1) as Hkeys.
  { by rewrite own_properties_Permutation. }
  generalize dependent (own_properties source). intros l Hl Hmem Hkeys.
  assert (obj_get (foldl (λ t p, obj_set p.1 p.2 t) target l) k =
          match obj_get l k with
          | Some v => Some v
          | None => obj_get target k
          end) as ->.
  { clear Hmem Hkeys. revert target.
    induction l as [|[k0 v0] l IH]; intros target; simpl; [done|].
    apply NoDup_cons in Hl as [Hk0 Hl]. rewrite IH by done.
    rewrite obj_get_cons, obj_get_obj_set.
    destruct (obj_get l k) as [v|] eqn:Hget; [|by case_bool_decide].
    case_bool_decide; [|done].
    subst. apply obj_get_Some_elem_of in Hget. exfalso. apply Hk0.
    apply list_elem_of_fmap. by exists (k, v). }
  destruct (obj_get l k) as [v|] eqn:Hl1, (obj_get source k) as [w|] eqn:Hs1;
    try done.
  - apply obj_get_Some_elem_of, Hmem in Hl1.
    apply (obj_get_elem_of _ _ _ Hnd) in Hl1. congruence.
  - apply obj_get_Some_elem_of in Hl1. apply obj_get_None in Hs1.
    exfalso. apply Hs1, Hkeys, list_elem_of_fmap. by exists (k, v).
  - apply obj_get_Some_elem_of in Hs1. apply obj_get_None in Hl1.
    exfalso. apply Hl1, Hkeys, list_elem_of_fmap. by exists (k, w).
Qed.

(** ** buildReducer *)

Lemma find_Some_first {A} (f : A → bool) (l : list A) x :
  List.find f l = Some x →
  f x = true ∧ ∃ l1 l2, l = l1 ++ x :: l2 ∧ Forall (λ y, f y = false) l1.
Proof.
  induction l as [|y l IH]; simpl; [done|].
  destruct (f y) eqn:Hy.
  - intros [= ->]. split; [done|]. by exists [], l.
  - intros (Hx & l1 & l2 & -> & Hl1)%IH. split; [done|].
    exists (y :: l1), l2. split; [done|]. by constructor.
Qed.

Lemma find_None_all {A} (f : A → bool) (l : list A) :
  List.find f l = None → Forall (λ y, f y = false) l.
Proof.
  induction l as [|y l IH]; simpl; [constructor|].
  destruct (f y) eqn:Hy; [done|]. intros. constructor; auto.
Qed.

Lemma test_dot_nil ext : test_dot ext [] = false.
Proof. done. Qed.

(** The three cases of [buildReducer] on the entry of a name. *)
Lemma buildReducer_unreferenced c d chunks_ chunk :
  existsb (referenced_by d) (chunk_urls c chunk) = false →
  buildReducer c d chunks_ chunk = chunks_.
Proof.
  unfold buildReducer.
  change (existsb _ (_ <$> StatsChunk.files chunk))
    with (existsb (referenced_by d) (chunk_urls c chunk)).
  by intros ->.
Qed.

Lemma buildReducer_other_name c d chunks_ chunk k :
  k ≠ chunkName_of chunk →
  obj_get (buildReducer c d chunks_ chunk) k = obj_get chunks_ k.
Proof.
  intros Hk. unfold buildReducer. destruct (existsb _ _); [|done].
  rewrite !obj_get_obj_set. by rewrite bool_decide_eq_false_2 by done.
Qed.

Lemma buildReducer_own_name c d chunks_ other chunk :
  obj_get (buildReducer c d chunks_ chunk) (chunkName_of chunk)
  = (if existsb (referenced_by d) (chunk_urls c chunk)
     then obj_get (buildReducer c d other chunk) (chunkName_of chunk)
     else obj_get chunks_ (chunkName_of chunk)).
Proof.
  unfold buildReducer.
  change (existsb _ (_ <$> StatsChunk.files chunk))
    with (existsb (referenced_by d) (chunk_urls c chunk)).
  destruct (existsb (referenced_by d) (chunk_urls c chunk)); [|done].
  rewrite !obj_get_obj_set. by rewrite !bool_decide_eq_true_2 by done.
Qed.



(** A chunk the document does not reference, or one of another name,
    leaves the entry of a name as it is, and so does a run of such chunks. *)
Lemma foldl_buildReducer_other c d k chunks : ∀ acc,
  Forall (λ chunk,
    existsb (referenced_by d) (chunk_urls c chunk) = true →
    chunkName_of chunk ≠ k) chunks →
  obj_get (foldl (buildReducer c d) acc chunks) k = obj_get acc k.
Proof.
  induction chunks as [|chunk chunks IH]; intros acc Hall; simpl; [done|].
  apply Forall_cons in Hall as [Hchunk Hall]. rewrite IH by done.
  destruct (existsb (referenced_by d) (chunk_urls c chunk)) eqn:Href.
  - apply buildReducer_other_name. intros ->. by apply Hchunk.
  - by rewrite buildReducer_unreferenced.
Qed.

(** X9. Over the stats chunks the last referenced chunk of a name wins:
    after the [reduce], the entry under the name of a referenced chunk is
    the one that chunk alone gives, if no referenced chunk after it has
    the same name. What earlier chunks of that name recorded is lost. *)
Theorem reduce_last_chunk_wins c d acc earlier chunk later :
  existsb (referenced_by d) (chunk_urls c chunk) = true →
  Forall (λ chunk',
    existsb (referenced_by d) (chunk_urls c chunk') = true →
    chunkName_of chunk' ≠ chunkName_of chunk) later →
  obj_get (foldl (buildReducer c d) acc (earlier ++ chunk :: later))
    (chunkName_of chunk)
  = obj_get (buildReducer c d [] chunk) (chunkName_of chunk).
Proof.
  intros Href Hlater. rewrite foldl_app. simpl.
  rewrite foldl_buildReducer_other by done.
  by rewrite (buildReducer_own_name c d _ []), Href.
Qed.

(** The names of the table stay distinct under [buildReducer]. *)
Lemma NoDup_buildReducer c d chunks_ chunk :
  NoDup chunks_.*1 → NoDup (buildReducer c d chunks_ chunk).*1.
Proof.
  intros Hnd. unfold buildReducer. destruct (existsb _ _); [|done].
  by do 2 apply NoDup_obj_set.
Qed.

Lemma NoDup_foldl_buildReducer c d chunks : ∀ acc,
  NoDup acc.*1 → NoDup (foldl (buildReducer c d) acc chunks).*1.
Proof.
  induction chunks as [|chunk chunks IH]; intros acc Hacc; simpl; [done|].
  by apply IH, NoDup_buildReducer.
Qed.

(** ** appendHash and the two patterns *)

Lemma startsWith_length s : ∀ p,
  startsWith s p = true → (length p ≤ length s)%nat.
Proof.
  induction s as [|b s IH]; intros [|a p]; simpl; try done; try lia.
  intros [_ Hp]%andb_true_iff. apply IH in Hp. lia.
Qed.

Lemma startsWith_app s t : ∀ p,
  startsWith s p = true → startsWith (s ++ t) p = true.
Proof.
  induction s as [|b s IH]; intros [|a p]; simpl; try done.
  - by destruct t.
  - intros [-> Hp]%andb_true_iff. by rewrite IH.
Qed.

(** A match of [/.EXT($|\?)/] is still one when a question mark and more
    follow the string. *)
Lemma test_dot_app_question ext s t :
  test_dot ext s = true → test_dot ext (s ++ 63%N :: t) = true.
Proof.
  induction s as [|c s IH]; simpl; [done|].
  intros [Hhere|Hlater]%orb_true_iff; apply orb_true_iff; [left|right; auto].
  apply andb_true_iff in Hhere as [[Hc Hext]%andb_true_iff Hend].
  rewrite Hc, (startsWith_app _ _ _ Hext). simpl.
  rewrite drop_app_le by by apply startsWith_length.
  by destruct (drop (length ext) s).
Qed.

Lemma appendHash_question url hash :
  url ≠ [] → 63%N ∉ url → appendHash url hash = url ++ 63%N :: hash.
Proof.
  intros Hne Hno. destruct url as [|u url]; [done|]. unfold appendHash.
  assert (indexOf (u :: url) (utf16 "?") = (-1)%Z) as ->; [|done].
  by apply (indexOf_from_single 63 (u :: url) 0%Z).
Qed.

Lemma appendHash_ampersand url hash :
  63%N ∈ url → appendHash url hash = url ++ 38%N :: hash.
Proof.
  intros Hin. destruct url as [|u url]; [by apply elem_of_nil in Hin|].
  unfold appendHash.
  destruct (Z.eqb_spec (indexOf (u :: url) (utf16 "?")) (-1)) as [He|_]; [|done].
  by apply (indexOf_from_single 63 (u :: url) 0%Z) in He.
Qed.

(** X10. Appending the hash to a url without a question mark keeps it a
    script or a style for [buildReducer]: a url that matches
    [/.EXT($|\?)/] still does with the hash appended. *)
Theorem appendHash_keeps_extension ext url hash :
  63%N ∉ url →
  test_dot ext url = true →
  test_dot ext (appendHash url hash) = true.
Proof.
  intros Hno Htest.
  rewrite appendHash_question; [by apply test_dot_app_question| |done].
  by intros ->.
Qed.

(** X11. Appending a second hash: whatever the url, if it is not empty
    the second hash follows an ampersand, so a url without a question mark
    ends up with exactly one. *)
Theorem appendHash_twice url hash1 hash2 :
  url ≠ [] →
  appendHash (appendHash url hash1) hash2
  = appendHash url hash1 ++ utf16 "&" ++ hash2
  ∧ (63%N ∉ url →
     appendHash (appendHash url hash1) hash2
     = url ++ utf16 "?" ++ hash1 ++ utf16 "&" ++ hash2).
Proof.
  intros Hne.
  assert (63%N ∈ appendHash url hash1) as Hin.
  { destruct (decide (63%N ∈ url)) as [Hq|Hq].
    - rewrite appendHash_ampersand by done. apply elem_of_app. by left.
    - rewrite appendHash_question by done. apply elem_of_app. right. by left. }
  split; [by apply appendHash_ampersand|].
  intros Hno. rewrite appendHash_ampersand by done.
  rewrite appendHash_question by done. by rewrite <-app_assoc.
Qed.

(** ** More of generateLinks and of the hooks *)

Lemma whitelisted_true o file :
  whitelisted o file = true ↔
  match fileWhitelist o with
  | None => True
  | Some l => ∃ regex, regex ∈ l ∧ test regex file = true
  end.
Proof.
  unfold whitelisted. destruct (fileWhitelist o) as [l|]; [|done].
  rewrite existsb_exists. setoid_rewrite list_elem_of_In. done.
Qed.

Lemma not_blacklisted_true o file :
  not_blacklisted o file = true ↔
  match fileBlacklist o with
  | None => True
  | Some l => ∀ regex, regex ∈ l → test regex file = false
  end.
Proof.
  unfold not_blacklisted. destruct (fileBlacklist o) as [l|]; [|done].
  rewrite forallb_forall. setoid_rewrite list_elem_of_In.
  setoid_rewrite negb_true_iff. done.
Qed.

Lemma skip_false o d :
  skip o d = false ↔
  (∀ l, includeHtmlNames o = Some l
        → HtmlPluginData.plugin_options_filename d ∈ l)
  ∧ (∀ l, excludeHtmlNames o = Some l
          → HtmlPluginData.plugin_options_filename d ∉ l).
Proof.
  rewrite <-not_true_iff_false, skip_true. split.
  - intros Hno. split; intros l Hl.
    + destruct (decide (HtmlPluginData.plugin_options_filename d ∈ l));
        [done|]. exfalso. apply Hno. left. eauto.
    + intros Hin. apply Hno. right. eauto.
  - intros [Hinc Hexc] [(l & Hl & Hout)|(l & Hl & Hin)].
    + by apply Hout, Hinc.
    + by apply (Hexc l).
Qed.

(** The after hook, case by case. *)
Lemma afterHook_run d st :
  afterHook d st =
  if skip (options (this st)) d then (Return (d, false), st)
  else
    (Return
       (match resourceHints (this st) with
        | Some hints =>
            if version_ge_4 d
            then set_headTags d (hints ++ HtmlPluginData.headTags d)
            else set_head d (hints ++ HtmlPluginData.head d)
        | None => d
        end, true), st).
Proof.
  unfold afterHook, mbind, M_bind, this_options, this_resourceHints.
  by destruct (skip _ _).
Qed.

Section MoreHelpers.

Variable extractChunks :
  Compilation.t → include_option → store → list Chunk.t * store.
Variable doesChunkBelongToHTML :
  store → Chunk.t → Compilation.t → list ChunkInfo.t → bool.
Variable determineAsValue : jsstring → jsstring → as_option → value.


(** X2. An empty whitelist array is a whitelist: with [fileWhitelist]
    set to [[]] no pattern matches any file and [generateLinks] leaves an
    empty list of hints. *)
Theorem empty_whitelist_hints_nothing st c d x st' :
  fileWhitelist (options (this st)) = Some [] →
  generateLinks extractChunks doesChunkBelongToHTML determineAsValue
    c d st = (Return x, st') →
  resourceHints (this st') = Some [].
Proof.
  intros Hwl Hrun.
  destruct (generateLinks_links _ _ _ _ _ _ _ _ Hrun)
    as (_ & _ & files & _ & ->).
  assert (kept_files (options (this st)) files = []) as ->; [|done].
  apply elem_of_nil_inv. intros f (_ & Hw & _)%elem_of_kept_files.
  apply whitelisted_true in Hw. rewrite Hwl in Hw.
  destruct Hw as (regex & Hin & _). by apply elem_of_nil in Hin.
Qed.

Lemma wp_htmlChunks_exact T σ o c d extracted :
  wp (if include_is (include o) (utf16 "allAssets") then mret extracted
      else Array_filterM (λ chunk,
             htmlAssetsChunks ←
               Object_valuesM (HtmlPluginData.assets_chunks d);
             σ ← get_arrays;
             mret (doesChunkBelongToHTML σ chunk c htmlAssetsChunks))
             extracted)
     {| this := T; arrays := σ |}
     (λ r st',
        st' = {| this := T; arrays := σ |} ∧
        (r = Throw TypeError ↔
         include_is (include o) (utf16 "allAssets") = false
         ∧ HtmlPluginData.assets_chunks d = None
         ∧ extracted ≠ [])
        ∧ ∀ e, r = Throw e → e = TypeError).
Proof.
  destruct (include_is _ _) eqn:Hall.
  { split; [done|]. split; [|done]. split; [done|]. by intros [? _]. }
  destruct (HtmlPluginData.assets_chunks d) as [obj|].
  - unfold wp. rewrite filterM_chunks_Some. simpl.
    split; [done|]. split; [|done]. split; [done|]. by intros (_ & ? & _).
  - destruct extracted as [|ch l].
    + split; [done|]. split; [|done]. split; [done|]. by intros (_ & _ & ?).
    + split; [done|]. split; [done|]. by intros e [= <-].
Qed.

(** X3. When [generateLinks] throws: exactly when [include] is not
    "allAssets", the descriptor has no [assets.chunks] and the extractor
    gives at least one chunk; it is a [TypeError], and it leaves the
    plugin, pending hints included, as it was. With no chunk extracted
    [generateLinks] returns and the list of hints is empty. *)
Theorem generateLinks_throws_iff st c d :
  let o := options (this st) in
  let r := extractChunks c (include o) (arrays st) in
  let res :=
    generateLinks extractChunks doesChunkBelongToHTML determineAsValue
      c d st in
  (res.1 = Throw TypeError ↔
   include_is (include o) (utf16 "allAssets") = false
   ∧ HtmlPluginData.assets_chunks d = None
   ∧ r.1 ≠ [])
  ∧ (∀ e, res.1 = Throw e →
       e = TypeError ∧ this res.2 = this st ∧ arrays res.2 = r.2)
  ∧ (r.1 = [] →
     res.1 = Return d ∧ resourceHints (this res.2) = Some []).
Proof.
  intros o r res. destruct st as [T σ].
  assert (wp (generateLinks extractChunks doesChunkBelongToHTML
                determineAsValue c d) {| this := T; arrays := σ |}
            (λ out st',
               (out = Throw TypeError ↔
                include_is (include o) (utf16 "allAssets") = false
                ∧ HtmlPluginData.assets_chunks d = None
                ∧ r.1 ≠ [])
               ∧ ∀ e, out = Throw e →
                   e = TypeError ∧ st' = {| this := T; arrays := r.2 |}))
    as Hwp.
  { unfold generateLinks.
    apply wp_bind, wp_this_options. simpl.
    apply wp_bind, wp_call.
    apply wp_bind. eapply wp_wand; [apply wp_htmlChunks_exact|].
    intros [htmlChunks|e] st' (-> & Hiff & Htype).
    2:{ pose proof (Htype e eq_refl) as ->.
        split; [split; [intros _; by apply Hiff|done]|].
        by intros e' [= <-]. }
    assert (∀ (out : outcome HtmlPluginData.t) st',
      (∃ y, out = Return y) →
      (out = Throw TypeError ↔
       include_is (include o) (utf16 "allAssets") = false
       ∧ HtmlPluginData.assets_chunks d = None ∧ r.1 ≠ [])
      ∧ ∀ e, out = Throw e →
          e = TypeError ∧ st' = {| this := T; arrays := r.2 |}) as Hret.
    { intros out st' [y ->]. split; [|done]. split; [done|].
      intros Hstuck. by apply Hiff in Hstuck. }
    apply wp_bind, wp_alloc. intros a0 Ha0.
    apply wp_bind, (wp_reduce_concat _ _ []); [apply lookup_insert_eq|].
    intros a1 σ1 ys Hσ1 Ha1 Hys.
    apply wp_bind, (wp_new_Set _ ys); [done|].
    apply wp_bind, wp_alloc. intros a2 Ha2.
    apply wp_bind, (wp_Array_filter _ _ (foldl Set_add [] ys));
      [apply lookup_insert_eq|].
    intros a3 Ha3.
    apply wp_bind, (wp_Array_filter _ _
      (List.filter (whitelisted (options T)) (foldl Set_add [] ys)));
      [apply lookup_insert_eq|].
    intros a4 Ha4.
    apply wp_bind, (wp_Array_sort _
      (List.filter (not_blacklisted (options T))
         (List.filter (whitelisted (options T)) (foldl Set_add [] ys))));
      [apply lookup_insert_eq|].
    apply wp_bind, wp_read_any.
    apply wp_bind, wp_set_resourceHints. apply wp_ret.
    apply Hret. by eexists. }
  unfold wp in Hwp. fold res in Hwp. destruct Hwp as [Hiff Hthrow].
  split; [done|]. split.
  - intros e He. destruct (Hthrow e He) as [-> Hst]. by rewrite Hst.
  - intros Hnil.
    destruct res.1 as [y|e] eqn:Hout.
    + assert (generateLinks extractChunks doesChunkBelongToHTML
                determineAsValue c d {| this := T; arrays := σ |}
              = (Return y, res.2)) as Hrun.
      { rewrite <-Hout. apply surjective_pairing. }
      destruct (generateLinks_links _ _ _ _ _ _ _ _ Hrun)
        as (-> & _ & files & Hfiles & Hhints).
      split; [done|]. fold res in Hhints. rewrite Hhints.
      unfold r, o in Hnil. simpl in Hnil, Hfiles. rewrite Hnil in Hfiles.
      rewrite Hfiles by constructor.
      unfold htmlChunks_of.
      by destruct (include_is _ _), (HtmlPluginData.assets_chunks d).
    + destruct (Hthrow e eq_refl) as [-> _].
      by destruct (proj1 Hiff eq_refl) as (_ & _ & ?).
Qed.

(** X4. The attributes of every descriptor, whatever [rel] is: [href] is
    the public path followed by the file, [rel] is [options.rel] as it
    is, and the own properties are [href] and [rel] alone unless [rel] is
    the string "preload"; then [as] is one too, always, even when the
    resolver returned undefined, and [crossorigin] is one exactly when the
    resolver returned "font". *)
Theorem descriptor_attributes st c d x st' :
  generateLinks extractChunks doesChunkBelongToHTML determineAsValue
    c d st = (Return x, st') →
  let o := options (this st) in
  let publicPath := or_empty (Compilation.outputOptions_publicPath c) in
  ∃ links, resourceHints (this st') = Some links ∧
    Forall (λ tag, ∃ file a,
      let resolved := determineAsValue (publicPath ++ file) file (as_ o) in
      attributes_of tag = Some a
      ∧ a !! utf16 "href" = Some (Str (publicPath ++ file))
      ∧ a !! utf16 "rel" = Some (rel o)
      ∧ dom a =
          if strict_eq_str (rel o) (utf16 "preload") then
            if strict_eq_str resolved (utf16 "font") then
              {[utf16 "href"; utf16 "rel"; utf16 "as"; utf16 "crossorigin"]}
            else {[utf16 "href"; utf16 "rel"; utf16 "as"]}
          else {[utf16 "href"; utf16 "rel"]}) links.
Proof.
  intros Hrun o publicPath.
  destruct (generateLinks_links _ _ _ _ _ _ _ _ Hrun)
    as (_ & _ & files & _ & ->).
  eexists. split; [done|]. apply Forall_fmap, Forall_forall. intros f _.
  exists f, (link_attributes determineAsValue o publicPath f).
  simpl. split; [apply attributes_of_link_tag|].
  split; [apply link_attributes_href|].
  destruct (link_attributes_cases determineAsValue o publicPath f)
    as [[Hne ->]|[(Hpre & Hfont & ->)|(Hpre & Hfont & ->)]].
  - apply strict_eq_str_false in Hne. rewrite Hne. split.
    + rewrite lookup_insert_ne by names_differ. by rewrite lookup_insert_eq.
    + rewrite !dom_insert_L, dom_empty_L. set_solver.
  - rewrite Hfont. rewrite (proj2 (strict_eq_str_true _ _) Hpre).
    rewrite (proj2 (strict_eq_str_true _ _) eq_refl). split.
    + rewrite !lookup_insert_ne by names_differ. by rewrite lookup_insert_eq.
    + rewrite !dom_insert_L, dom_empty_L. set_solver.
  - rewrite (proj2 (strict_eq_str_true _ _) Hpre).
    rewrite (proj2 (strict_eq_str_false _ _) Hfont). split.
    + rewrite !lookup_insert_ne by names_differ. by rewrite lookup_insert_eq.
    + rewrite !dom_insert_L, dom_empty_L. set_solver.
Qed.



(** Two lists with the same elements leave the same kept files. *)
Lemma kept_files_same_elements o files1 files2 :
  (∀ f, f ∈ files1 ↔ f ∈ files2) →
  kept_files o files1 = kept_files o files2.
Proof.
  intros Hsame.
  apply (StronglySorted_unique code_unit_le);
    [apply StronglySorted_kept_files..|].
  apply NoDup_Permutation; [apply NoDup_kept_files..|].
  intros f. rewrite !elem_of_kept_files. by rewrite Hsame.
Qed.


End MoreHelpers.

(** ** The further properties on the examples *)

Lemma example_filter_chunks_allocated :
  let r := extractChunks_model example_compilation
             (include (options (this example_filter_state)))
             (arrays example_filter_state) in
  Forall (λ ch, is_Some (r.2 !! Chunk.files ch)) r.1.
Proof. repeat constructor; eexists; vm_compute; reflexivity. Qed.

Lemma example_reversed_chunks_allocated :
  let r := extractChunks_model example_reversed_compilation
             (include (options (this (example_state "preload"))))
             (arrays (example_state "preload")) in
  Forall (λ ch, is_Some (r.2 !! Chunk.files ch)) r.1.
Proof. repeat constructor; eexists; vm_compute; reflexivity. Qed.


(** X2 on the example with [fileWhitelist: []]. *)
Lemma empty_whitelist_hints_nothing_witness :
  resourceHints
    (this (run_generateLinks [] example_compilation example_document
             example_empty_whitelist_state).2)
  = Some [].
Proof.
  apply (empty_whitelist_hints_nothing extractChunks_model
           doesChunkBelongToHTML_model (determineAsValue_model [])
           example_empty_whitelist_state example_compilation example_document
           example_document _ eq_refl).
  by vm_compute.
Defined.

(** X4 on the example. *)
Lemma descriptor_attributes_witness :
  ∃ links,
    resourceHints
      (this (run_generateLinks [] example_compilation example_document
               (example_state "preload")).2) = Some links
    ∧ Forall (λ tag, ∃ file a,
        let resolved :=
          determineAsValue_model [] (utf16 "/static/" ++ file) file
            AsUndefined in
        attributes_of tag = Some a
        ∧ a !! utf16 "href" = Some (Str (utf16 "/static/" ++ file))
        ∧ a !! utf16 "rel" = Some (Str (utf16 "preload"))
        ∧ dom a =
            if strict_eq_str resolved (utf16 "font") then
              {[utf16 "href"; utf16 "rel"; utf16 "as"; utf16 "crossorigin"]}
            else {[utf16 "href"; utf16 "rel"; utf16 "as"]}) links.
Proof.
  apply (descriptor_attributes extractChunks_model
           doesChunkBelongToHTML_model (determineAsValue_model [])
           (example_state "preload") example_compilation example_document
           example_document).
  by vm_compute.
Defined.




(** X9 on two chunks named [main], followed by the unnamed chunk: the
    entry is that of the second. *)
Lemma reduce_last_chunk_wins_witness :
  let first :=
    {| StatsChunk.files := utf16 <$> ["main.js"];
       StatsChunk.names := [utf16 "main"]; StatsChunk.idHints := [];
       StatsChunk.size := 10%Z; StatsChunk.hash := utf16 "h1" |} in
  let unnamed :=
    {| StatsChunk.files := utf16 <$> ["vendor.css"];
       StatsChunk.names := []; StatsChunk.idHints := [utf16 "vendors"];
       StatsChunk.size := 20%Z; StatsChunk.hash := utf16 "h2" |} in
  let second :=
    {| StatsChunk.files := utf16 <$> ["main.css"];
       StatsChunk.names := [utf16 "main"]; StatsChunk.idHints := [];
       StatsChunk.size := 30%Z; StatsChunk.hash := utf16 "h3" |} in
  obj_get (foldl (buildReducer example_stats_compilation example_v4_document)
             [] [first; second; unnamed]) (utf16 "main")
  = obj_get (buildReducer example_stats_compilation example_v4_document
               [] second) (utf16 "main").
Proof.
  intros first unnamed second.
  apply (reduce_last_chunk_wins example_stats_compilation example_v4_document
           [] [first] second [unnamed]).
  - by vm_compute.
  - constructor; [|constructor]. intros _. by vm_compute.
Defined.

(** X10 on [main.js]. *)
Lemma appendHash_keeps_extension_witness :
  test_dot (utf16 "js") (appendHash (utf16 "/static/main.js") (utf16 "abc"))
  = true.
Proof.
  apply appendHash_keeps_extension; [|done].
  vm_compute. intros H. repeat (apply elem_of_cons in H as [H|H]; [done|]).
  by apply elem_of_nil in H.
Defined.

(** X11 on [main.js]. *)
Lemma appendHash_twice_witness :
  appendHash (appendHash (utf16 "main.js") (utf16 "abc")) (utf16 "def")
  = utf16 "main.js?abc&def".
Proof.
  destruct (appendHash_twice (utf16 "main.js") (utf16 "abc") (utf16 "def"))
    as [_ Htwice]; [done|].
  rewrite Htwice; [done|].
  vm_compute. intros H. repeat (apply elem_of_cons in H as [H|H]; [done|]).
  by apply elem_of_nil in H.
Defined.


(** ** All assets *)

Section AllAssets.

Variable extractChunks :
  Compilation.t → include_option → store → list Chunk.t * store.
Variable doesChunkBelongToHTML :
  store → Chunk.t → Compilation.t → list ChunkInfo.t → bool.
Variable determineAsValue : jsstring → jsstring → as_option → value.

(** X13. With [include] set to "allAssets" the document plays no part:
    [generateLinks] returns for any two descriptors, with or without
    [assets.chunks], and leaves the same plugin, hints included, and the
    same arrays for both. *)
Theorem allAssets_ignores_the_document st c d1 d2 :
  include_is (include (options (this st))) (utf16 "allAssets") = true →
  ∃ st',
    generateLinks extractChunks doesChunkBelongToHTML determineAsValue
      c d1 st = (Return d1, st')
    ∧ generateLinks extractChunks doesChunkBelongToHTML determineAsValue
        c d2 st = (Return d2, st').
Proof.
  intros Hall.
  destruct (generateLinks_returns extractChunks doesChunkBelongToHTML
              determineAsValue st c d1) as [st' Hrun]; [by left|].
  exists st'. split; [done|]. revert Hrun.
  unfold generateLinks, mbind, M_bind, this_options, call. simpl.
  rewrite Hall. simpl.
  repeat match goal with
  | |- context [match ?m with (_, _) => _ end] =>
      lazymatch m with
      | context [d1] => fail
      | _ => destruct m as [[?|?] ?]; simpl; try done
      end
  end.
  by intros [= <-].
Qed.

End AllAssets.

(** X13 on the assets of the example, for the version 3 and the version
    4 document. *)
Lemma allAssets_ignores_the_document_witness :
  ∃ st',
    run_generateLinks [] example_wide_compilation example_document
      example_wide_state = (Return example_document, st')
    ∧ run_generateLinks [] example_wide_compilation example_v4_document
        example_wide_state = (Return example_v4_document, st').
Proof.
  apply (allAssets_ignores_the_document extractChunks_model
           doesChunkBelongToHTML_model (determineAsValue_model [])
           example_wide_state example_wide_compilation
           example_document example_v4_document).
  by vm_compute.
Defined.
